(** * BiciMAD collector: a shallow embedding of the collection loop

    The development follows [src/collector/BiciMAD_Data_Collector.py] and
    [src/collector/BiciMAD_Scheduled_Collector.py].  Python values coming
    out of [response.json()] are an inductive type, exceptions are an error
    result, the collector object (counters, files, log) is threaded through
    a small state-and-exception monad, and the wall clock of the windowed
    scheduler is explicit. *)

From Stdlib Require Import ZArith NArith List Lia Bool.
From Stdlib Require Import PrimFloat FloatOps SpecFloat.
From stdpp Require Import gmap strings pretty.

Open Scope Z_scope.
Set Warnings "-register-all".

(** ** Python values *)

Module Py.

(** A Python [str] is a sequence of Unicode code points. *)
Definition ustring := list N.

(** An ASCII literal of the source, as code points. *)
Definition lit (s : string) : ustring :=
  map (fun a => Ascii.N_of_ascii a) (String.list_ascii_of_string s).

Definition ustring_eqb (a b : ustring) : bool := bool_decide (a = b).

(** The exceptions the collector can meet. *)
Inductive exn :=
| AttributeError
| IndexError
| KeyError
| TypeError
| OverflowError
| ValueError
| OSError.

Inductive result (A : Type) :=
| Ok (a : A)
| Raise (e : exn).
Arguments Ok {A} a.
Arguments Raise {A} e.

(** What [json.loads] builds: [None], [bool], [int], [float], [str], [list]
    and [dict] with [str] keys.  A dict is an association list read at its
    first binding of a key; the lists stand for dicts, whose keys are
    distinct. *)
Inductive pyval :=
| PNone
| PBool (b : bool)
| PInt (z : Z)
| PFloat (f : float)
| PStr (s : ustring)
| PList (l : list pyval)
| PDict (d : list (ustring * pyval)).

Definition float_is_zero (f : float) : bool := PrimFloat.eqb f 0%float.

(** [bool(v)]. *)
Definition truthy (v : pyval) : bool :=
  match v with
  | PNone => false
  | PBool b => b
  | PInt z => negb (z =? 0)
  | PFloat f => negb (float_is_zero f)
  | PStr s => match s with [] => false | _ => true end
  | PList l => match l with [] => false | _ => true end
  | PDict d => match d with [] => false | _ => true end
  end.

(** [v == 0]: numbers (and booleans, which are integers) compare by value,
    everything else is different from [0]. *)
Definition eq_zero (v : pyval) : bool :=
  match v with
  | PBool b => negb b
  | PInt z => z =? 0
  | PFloat f => float_is_zero f
  | _ => false
  end.

(** [d.get(k, default)] on a dict. *)
Fixpoint dict_get (d : list (ustring * pyval)) (k : ustring) (default : pyval) : pyval :=
  match d with
  | [] => default
  | (k', v) :: d' => if ustring_eqb k' k then v else dict_get d' k default
  end.

(** [k in d] on a dict. *)
Fixpoint dict_mem (k : ustring) (d : list (ustring * pyval)) : bool :=
  match d with
  | [] => false
  | (k', _) :: d' => ustring_eqb k' k || dict_mem k d'
  end.

(** [v.get(k, default)]: only a dict has a [get] attribute. *)
Definition py_get (v : pyval) (k : ustring) (default : pyval) : result pyval :=
  match v with
  | PDict d => Ok (dict_get d k default)
  | _ => Raise AttributeError
  end.

(** [v[i]] for the literal indices [0] and [1]. *)
Definition py_getitem (v : pyval) (i : nat) : result pyval :=
  match v with
  | PList l => match nth_error l i with Some x => Ok x | None => Raise IndexError end
  | PStr s => match nth_error s i with Some c => Ok (PStr [c]) | None => Raise IndexError end
  | PDict _ => Raise KeyError
  | _ => Raise TypeError
  end.

(** [float(z)] for an [int]: round to nearest even, [OverflowError] when
    the integer is too large. *)
Definition float_of_int (z : Z) : result float :=
  match binary_normalize prec emax z 0 false with
  | S754_infinity _ => Raise OverflowError
  | sf => Ok (SF2Prim sf)
  end.

Definition int_of_bool (b : bool) : Z := if b then 1 else 0.

(** The numeric tower of [+]: [bool] is an [int]; an [int] meeting a
    [float] is converted first. *)
Inductive num :=
| NInt (z : Z)
| NFloat (f : float).

Definition as_num (v : pyval) : option num :=
  match v with
  | PBool b => Some (NInt (int_of_bool b))
  | PInt z => Some (NInt z)
  | PFloat f => Some (NFloat f)
  | _ => None
  end.

Definition num_add (a b : num) : result pyval :=
  match a, b with
  | NInt x, NInt y => Ok (PInt (x + y))
  | NFloat x, NFloat y => Ok (PFloat (PrimFloat.add x y))
  | NInt x, NFloat y =>
      match float_of_int x with
      | Ok fx => Ok (PFloat (PrimFloat.add fx y))
      | Raise e => Raise e
      end
  | NFloat x, NInt y =>
      match float_of_int y with
      | Ok fy => Ok (PFloat (PrimFloat.add x fy))
      | Raise e => Raise e
      end
  end.

(** [a + b]. *)
Definition py_add (a b : pyval) : result pyval :=
  match as_num a, as_num b with
  | Some x, Some y => num_add x y
  | _, _ =>
      match a, b with
      | PStr s, PStr t => Ok (PStr (s ++ t))
      | PList l, PList m => Ok (PList (l ++ m))
      | _, _ => Raise TypeError
      end
  end.

(** [isinstance(v, dict)]. *)
Definition is_dict (v : pyval) : bool :=
  match v with PDict _ => true | _ => false end.

(** [old] is a prefix of [s]. *)
Fixpoint starts_with (old s : ustring) : bool :=
  match old, s with
  | [], _ => true
  | _ :: _, [] => false
  | a :: old', b :: s' => (a =? b)%N && starts_with old' s'
  end.

(** [s.replace(old, new)] for a non-empty [old]: occurrences are replaced
    from left to right and do not overlap; [skip] counts the characters of
    a matched occurrence still to be passed over. *)
Fixpoint replace_from (old new : ustring) (skip : nat) (s : ustring) : ustring :=
  match s with
  | [] => []
  | c :: rest =>
      match skip with
      | S k => replace_from old new k rest
      | O =>
          if starts_with old s
          then new ++ replace_from old new (length old - 1) rest
          else c :: replace_from old new 0 rest
      end
  end.

Definition replace (old new s : ustring) : ustring := replace_from old new 0 s.

End Py.

Import Py.

(** [a] occurs in [s]. *)
Fixpoint is_infix (a s : ustring) : bool :=
  starts_with a s || match s with [] => false | _ :: s' => is_infix a s' end.

(** [k in v] for a [str] [k]: key membership in a dict, element equality
    in a list, substring in a [str]; other values are not containers. *)
Definition py_contains (k : ustring) (v : pyval) : result bool :=
  match v with
  | PDict d => Ok (dict_mem k d)
  | PList l => Ok (existsb (fun x => match x with PStr s => ustring_eqb s k | _ => false end) l)
  | PStr s => Ok (is_infix k s)
  | _ => Raise TypeError
  end.

(** [v[k]] for a [str] subscript. *)
Definition py_subscript (v : pyval) (k : ustring) : result pyval :=
  match v with
  | PDict d => if dict_mem k d then Ok (dict_get d k PNone) else Raise KeyError
  | _ => Raise TypeError
  end.

(** [for x in v]: the elements of a list, the keys of a dict, the
    characters of a [str]. *)
Definition py_iter (v : pyval) : result (list pyval) :=
  match v with
  | PList l => Ok l
  | PDict d => Ok (map (fun kv => PStr (fst kv)) d)
  | PStr s => Ok (map (fun c => PStr [c]) s)
  | _ => Raise TypeError
  end.

(** ** Text normalisation *)

(** The two tables of [unicodedata] that [normalize_text] reads:
    [decomposition c] is the full compatibility decomposition of the code
    point [c] ([[c]] when it has none), [combining c] its canonical
    combining class. *)
Class UnicodeData := {
  decomposition : N -> list N;
  combining : N -> N
}.

Definition is_ascii (c : N) : bool := (c <=? 127)%N.

(** The part of the tables over Latin-1 that the station names use, for
    running the normaliser: accented letters decompose into a base letter
    and a mark of class 230 (cedilla: 202), the ordinal indicators into
    their letter. *)
Definition latin_decomposition (c : N) : list N :=
  match c with
  | 170 => [97] | 186 => [111]
  | 193 => [65; 769] | 201 => [69; 769] | 205 => [73; 769]
  | 211 => [79; 769] | 218 => [85; 769] | 209 => [78; 771]
  | 225 => [97; 769] | 233 => [101; 769] | 237 => [105; 769]
  | 243 => [111; 769] | 250 => [117; 769] | 241 => [110; 771]
  | 252 => [117; 776] | 231 => [99; 807]
  | _ => [c]
  end%N.

Definition latin_combining (c : N) : N :=
  (if (768 <=? c) && (c <=? 788) then 230
   else if (c =? 807) then 202
   else 0)%N.

Definition latin_tables : UnicodeData :=
  {| decomposition := latin_decomposition; combining := latin_combining |}.

Section Normalizer.
Context {U : UnicodeData}.

(** Canonical ordering: inside a run of marks (class above 0) a mark moves
    right past the marks of a strictly smaller class, so that marks of equal
    class keep their order. *)
Fixpoint insert_mark (c : N) (r : ustring) : ustring :=
  match r with
  | m :: ms =>
      if (0 <? combining m)%N && (combining m <? combining c)%N
      then m :: insert_mark c ms
      else c :: r
  | [] => [c]
  end.

Fixpoint canonical_order (s : ustring) : ustring :=
  match s with
  | [] => []
  | c :: rest =>
      if (combining c =? 0)%N then c :: canonical_order rest
      else insert_mark c (canonical_order rest)
  end.

(** [unicodedata.normalize('NFKD', s)]. *)
Definition nfkd (s : ustring) : ustring :=
  canonical_order (flat_map decomposition s).

(** The body of [normalize_text] on a non-empty [str]. *)
Definition normalize_str (text : ustring) : ustring :=
  let text := replace [186%N] (lit ".") (replace [110%N; 186%N] (lit "n.") text) in
  let text := nfkd text in
  let text := List.filter (fun c => (combining c =? 0)%N) text in
  List.filter is_ascii text.

(** [normalize_text(text)]: a falsy argument gives the empty string; a
    truthy one must have a [replace] method. *)
Definition normalize_text (text : pyval) : result ustring :=
  if negb (truthy text) then Ok []
  else match text with
       | PStr s => Ok (normalize_str s)
       | _ => Raise AttributeError
       end.

End Normalizer.

(** ** The result monad *)

Global Instance result_ret : MRet result := fun _ a => Ok a.
Global Instance result_bind : MBind result := fun _ _ f r =>
  match r with
  | Ok a => f a
  | Raise e => Raise e
  end.

(** ** Station records *)

(** One row of the table: the keys of [station_data], in their order. *)
Record station_record := {
  timestamp : ustring;
  station_id : pyval;
  name : ustring;
  address : ustring;
  longitude : pyval;
  latitude : pyval;
  total_bases : pyval;
  active_bases : pyval;
  available_bikes : pyval;
  free_bases : pyval;
  reservations : pyval;
  status : Z
}.

Section Extractor.
Context {U : UnicodeData}.

(** [station.get('light', {}).get(k, 0)], read when the primary field is
    zero, the station has a ['light'] key and its value is a dict. *)
Definition light_fallback (station : pyval) (k : ustring) (primary : pyval) : result pyval :=
  if eq_zero primary then
    py_contains (lit "light") station ≫= λ has_light : bool,
    if has_light then
      light ← py_get station (lit "light") PNone;
      if is_dict light then
        light ← py_get station (lit "light") (PDict []);
        py_get light k (PInt 0)
      else Ok primary
    else Ok primary
  else Ok primary.

(** [station.get(k, 0)], read when the coordinate taken from the geometry
    is zero and the station has the flat field. *)
Definition flat_fallback (station : pyval) (k : ustring) (coordinate : pyval) : result pyval :=
  if eq_zero coordinate then
    py_contains k station ≫= λ has_flat : bool,
    if has_flat then py_get station k (PInt 0) else Ok coordinate
  else Ok coordinate.

(** The body of the loop of [process_stations_data], up to the dict
    [station_data]. *)
Definition station_row (ts : ustring) (station : pyval) : result station_record :=
  raw_name ← py_get station (lit "name") (PStr []);
  name ← normalize_text raw_name;
  raw_address ← py_get station (lit "address") (PStr []);
  address ← normalize_text raw_address;
  geometry ← py_get station (lit "geometry") (PDict []);
  coordinates ← py_get geometry (lit "coordinates") (PList [PInt 0; PInt 0]);
  longitude ← py_getitem coordinates 0;
  geometry ← py_get station (lit "geometry") (PDict []);
  coordinates ← py_get geometry (lit "coordinates") (PList [PInt 0; PInt 0]);
  latitude ← py_getitem coordinates 1;
  longitude ← flat_fallback station (lit "longitude") longitude;
  latitude ← flat_fallback station (lit "latitude") latitude;
  availability ← py_get station (lit "dock_bikes") (PInt 0);
  free ← py_get station (lit "free_bases") (PInt 0);
  total ← py_get station (lit "total_bases") (PInt 0);
  availability ← light_fallback station (lit "availability") availability;
  free ← light_fallback station (lit "free") free;
  total ← (if eq_zero total then py_add availability free else Ok total);
  id ← py_get station (lit "id") PNone;
  active ← py_add availability free;
  reservations ← py_get station (lit "reservations") (PInt 0);
  activate ← py_get station (lit "activate") (PBool false);
  Ok {| timestamp := ts;
        station_id := id;
        name := name;
        address := address;
        longitude := longitude;
        latitude := latitude;
        total_bases := total;
        active_bases := active;
        available_bikes := availability;
        free_bases := free;
        reservations := reservations;
        status := if truthy activate then 1 else 0 |}.

(** [longitude == 0 or latitude == 0]: the row is kept and a warning is
    logged. *)
Definition unresolved_coordinates (r : station_record) : bool :=
  eq_zero (longitude r) || eq_zero (latitude r).

End Extractor.

(** ** The collector and its surroundings *)

(** A path, as [pathlib] builds it with [/]: its components. *)
Definition path := list string.

Inductive level := INFO | WARNING | ERROR.

(** The messages of the two scripts. *)
Inductive message :=
| StartingCollection
| FetchError
| JsonSaved (file : path)
| InvalidFormat
| CoordinatesNotFound (id : pyval) (station_name : ustring)
| NoStationExtracted
| Processed (n : nat)
| FirstRow (r : station_record)
| NoDataForCsv
| CsvUpdated (file : path)
| CsvCreated (file : path)
| CollectionSaved (file : path)
| CollectionSucceeded
| ProcessingFailed
| NoDataObtained
| CollectionError (e : exn)
| CollectionScheduled (minutes : Z)
| CollectorStarted
| CollectorStopped
| Statistics (made saved failed : Z)
| CriticalError (e : exn)
| ProgramStarting
| StartAt (time : Z)
| EndAt (time : Z)
| IntervalIs (minutes : Z)
| WaitingForStart (wait : Z)
| WaitingForNext (wait : Z)
| NextCollectionAt (time : Z)
| StartingProcess
| ProcessCompleted
| ProcessError (e : exn)
| NextRunExceedsEnd
| ProgramFinished.

(** [collection_stats], without its ['start_time'] entry. *)
Record collection_stats := {
  collections_made : Z;
  total_files : Z;
  errors : Z
}.

(** What a cycle reads and writes: the counters of the collector, the
    files under [bicimad_data] with their bytes, and the log, oldest
    entry first. *)
Record world := {
  stats : collection_stats;
  files : gmap path string;
  log : list (level * message)
}.

(** The outcome of [requests.get] followed by [raise_for_status] and
    [json()]. *)
Inductive http_outcome :=
| HttpJson (data : pyval)
| HttpRequestException.

(** What the outside gives to one cycle: the answer of the API, the
    readings of the clock ([%Y%m%d] and [%H%M%S] for the file names,
    [%Y-%m-%d %H:%M:%S] for the rows) and, for each file written, whether
    the write raises.  A write that raises leaves the files as they
    were. *)
Record cycle_env := {
  http : http_outcome;
  snapshot_stamp : string * string;
  snapshot_io : option exn;
  extract_stamp : ustring;
  history_io : option exn;
  csv_stamp : string * string;
  daily_io : option exn
}.

(** [json.dump] and [DataFrame.to_csv]: the bytes of a payload, of the
    header line and of the data lines of a frame. *)
Class Serializer := {
  json_dump : pyval -> string;
  csv_header : string;
  csv_body : list station_record -> string
}.

(** State and exceptions: a raised exception keeps the changes made so
    far. *)
Definition M (A : Type) : Type := world -> result A * world.

Global Instance M_ret : MRet M := fun _ a w => (Ok a, w).
Global Instance M_bind : MBind M := fun _ _ f m w =>
  match m w with
  | (Ok a, w') => f a w'
  | (Raise e, w') => (Raise e, w')
  end.

Definition lift {A} (r : result A) : M A := fun w => (r, w).

Definition logging (l : level) (m : message) : M unit := fun w =>
  (Ok tt, {| stats := stats w; files := files w; log := log w ++ [(l, m)] |}).

Definition update_stats (f : collection_stats -> collection_stats) : M unit := fun w =>
  (Ok tt, {| stats := f (stats w); files := files w; log := log w |}).

Definition incr_collections_made (s : collection_stats) : collection_stats :=
  {| collections_made := collections_made s + 1;
     total_files := total_files s;
     errors := errors s |}.

Definition incr_total_files (s : collection_stats) : collection_stats :=
  {| collections_made := collections_made s;
     total_files := total_files s + 1;
     errors := errors s |}.

Definition incr_errors (s : collection_stats) : collection_stats :=
  {| collections_made := collections_made s;
     total_files := total_files s;
     errors := errors s + 1 |}.

Definition exists_file (p : path) : M bool := fun w =>
  (Ok (bool_decide (is_Some (files w !! p))), w).

(** [open(p, 'w')] and a write of [content]. *)
Definition write_file (io : option exn) (p : path) (content : string) : M unit := fun w =>
  match io with
  | Some e => (Raise e, w)
  | None => (Ok tt, {| stats := stats w; files := <[p := content]> (files w); log := log w |})
  end.

(** [open(p, 'a')] and a write of [content]. *)
Definition append_file (io : option exn) (p : path) (content : string) : M unit := fun w =>
  match io with
  | Some e => (Raise e, w)
  | None =>
      (Ok tt, {| stats := stats w;
                 files := <[p := (default EmptyString (files w !! p) +:+ content)%string]> (files w);
                 log := log w |})
  end.

Definition base_dir : path := ["bicimad_data"%string].
Definition data_dir : path := base_dir ++ ["collections"%string].
Definition csv_dir : path := base_dir ++ ["csv"%string].
Definition main_csv_path : path := csv_dir ++ ["bicimad_stations_data.csv"%string].

Definition try_except {A} (m : M A) (handler : exn -> M A) : M A := fun w =>
  match m w with
  | (Raise e, w') => handler e w'
  | ok => ok
  end.

Section Collector.
Context {U : UnicodeData} {ser : Serializer}.

(** [get_station_info]: the payload, or [None] after a
    [RequestException], which is logged and counted here. *)
Definition get_station_info (env : cycle_env) : M pyval :=
  match http env with
  | HttpJson data => mret data
  | HttpRequestException =>
      logging ERROR FetchError;;
      update_stats incr_errors;;
      mret PNone
  end.

(** [save_json_data]. *)
Definition save_json_data (env : cycle_env) (data : pyval) : M (option path) :=
  match data with
  | PNone => mret None
  | _ =>
      let current_date := fst (snapshot_stamp env) in
      let date_dir := data_dir ++ [current_date; "stations"%string] in
      let filename := date_dir ++ [("stations_" +:+ snd (snapshot_stamp env) +:+ ".json")%string] in
      write_file (snapshot_io env) filename (json_dump data);;
      update_stats incr_total_files;;
      logging INFO (JsonSaved filename);;
      mret (Some filename)
  end.

(** The loop of [process_stations_data]: rows are appended in the order
    of the entries; an exception raised by an entry leaves the loop. *)
Fixpoint extract_rows (ts : ustring) (stations : list pyval) : M (list station_record) :=
  match stations with
  | [] => mret []
  | station :: rest =>
      row ← lift (station_row ts station);
      (if unresolved_coordinates row
       then logging WARNING (CoordinatesNotFound (station_id row) (name row))
       else mret tt);;
      rows ← extract_rows ts rest;
      mret (row :: rows)
  end.

(** [process_stations_data]: the frame, or [None]. *)
Definition process_stations_data (env : cycle_env) (data : pyval)
  : M (option (list station_record)) :=
  if negb (truthy data) then logging ERROR InvalidFormat;; mret None
  else
    lift (py_contains (lit "data") data) ≫= λ has_data : bool,
    if negb has_data then logging ERROR InvalidFormat;; mret None
    else
      entries ← lift (py_subscript data (lit "data"));
      stations ← lift (py_iter entries);
      extract_rows (extract_stamp env) stations ≫= λ rows : list station_record,
      match rows with
      | [] => logging ERROR NoStationExtracted;; mret None
      | first :: _ =>
          logging INFO (Processed (length rows));;
          logging INFO (FirstRow first);;
          mret (Some rows)
      end.

(** [df.to_csv(p, index=False)], with or without the header line. *)
Definition to_csv (header : bool) (rows : list station_record) : string :=
  ((if header then csv_header else EmptyString) +:+ csv_body rows)%string.

(** [update_csv]. *)
Definition update_csv (env : cycle_env) (df : option (list station_record)) : M unit :=
  match df with
  | None | Some [] => logging WARNING NoDataForCsv
  | Some rows =>
      exists_file main_csv_path ≫= λ present : bool,
      (if present
       then append_file (history_io env) main_csv_path (to_csv false rows);;
            logging INFO (CsvUpdated main_csv_path)
       else write_file (history_io env) main_csv_path (to_csv true rows);;
            logging INFO (CsvCreated main_csv_path));;
      let current_date := fst (csv_stamp env) in
      let daily_csv_dir := csv_dir ++ [current_date] in
      let daily_csv_path := daily_csv_dir ++ [("stations_" +:+ snd (csv_stamp env) +:+ ".csv")%string] in
      write_file (daily_io env) daily_csv_path (to_csv true rows);;
      logging INFO (CollectionSaved daily_csv_path)
  end.

(** The [try] block of [collect_data]. *)
Definition collect_data_try (env : cycle_env) : M unit :=
  logging INFO StartingCollection;;
  data ← get_station_info env;
  if truthy data then
    save_json_data env data;;
    process_stations_data env data ≫= λ df : option (list station_record),
    match df with
    | Some (_ :: _) =>
        update_csv env df;;
        update_stats incr_collections_made;;
        logging INFO CollectionSucceeded
    | _ =>
        logging ERROR ProcessingFailed;;
        update_stats incr_errors
    end
  else
    logging ERROR NoDataObtained;;
    update_stats incr_errors.

(** [collect_data]: whatever the [try] block raises is logged and
    counted. *)
Definition collect_data (env : cycle_env) : M unit :=
  try_except (collect_data_try env)
    (fun e => logging ERROR (CollectionError e);; update_stats incr_errors).

End Collector.

(** ** The two schedulers *)

(** The environment variables read through [os.getenv]. *)
Record config := {
  access_token : option ustring;
  interval_minutes : Z
}.

Definition zero_stats : collection_stats :=
  {| collections_made := 0; total_files := 0; errors := 0 |}.

(** [BiciMADCollector()]: a collector with counters at zero; the world
    holds the counters of the collector in use, so those of an earlier
    collector are gone.  Without a token the constructor raises. *)
Definition BiciMADCollector (cfg : config) : M unit := fun w =>
  match access_token cfg with
  | Some (_ :: _) => (Ok tt, {| stats := zero_stats; files := files w; log := log w |})
  | _ => (Raise ValueError, w)
  end.

(** The lines of [show_stats], as one entry. *)
Definition show_stats : M unit := fun w =>
  logging INFO (Statistics (collections_made (stats w)) (total_files (stats w)) (errors (stats w))) w.

Section Schedulers.
Context {U : UnicodeData} {ser : Serializer}.

(** The jobs that [schedule.run_pending] starts, one after the other. *)
Fixpoint run_pending (later : list cycle_env) : M unit :=
  match later with
  | [] => mret tt
  | env :: rest => collect_data env;; run_pending rest
  end.

(** [main] of [BiciMAD_Data_Collector.py], interrupted by the user after
    the cycles of [later]: one collector serves every cycle. *)
Definition interval_main (cfg : config) (first : cycle_env) (later : list cycle_env) : M unit :=
  try_except
    (BiciMADCollector cfg;;
     collect_data first;;
     logging INFO (CollectionScheduled (interval_minutes cfg));;
     logging INFO CollectorStarted;;
     run_pending later;;
     logging INFO CollectorStopped;;
     show_stats)
    (fun e => logging ERROR (CriticalError e)).

(** What the outside gives to one turn of the windowed loop: the cycle,
    the time it takes and the time by which [time.sleep] overruns.  Times
    are in microseconds, the resolution of [datetime]. *)
Record turn := {
  cycle : cycle_env;
  cycle_duration : Z;
  sleep_overrun : Z
}.

(** The state of the windowed scheduler: the world, the clock, and for
    each cycle started so far its trigger time [next_run] and the clock at
    its start. *)
Record sched := {
  sworld : world;
  clock : Z;
  started : list (Z * Z)
}.

Definition run (m : M unit) (w : world) : world := snd (m w).

(** One pass through the body of the [while] loop, up to the computation
    of the next trigger time: a new collector is created for the cycle. *)
Definition scheduled_cycle (cfg : config) (t : turn) (next_run : Z) (st : sched) : sched :=
  let body :=
    logging INFO StartingProcess;;
    try_except
      (BiciMADCollector cfg;;
       collect_data (cycle t);;
       logging INFO ProcessCompleted)
      (fun e => logging ERROR (ProcessError e)) in
  {| sworld := run body (sworld st);
     clock := clock st + cycle_duration t;
     started := started st ++ [(next_run, clock st)] |}.

Definition finish (st : sched) : sched :=
  {| sworld := run (logging INFO ProgramFinished) (sworld st);
     clock := clock st;
     started := started st |}.

(** The program has ended, or it is still in its loop when the fuel of
    the model runs out. *)
Inductive outcome :=
| Stopped (st : sched)
| StillRunning (st : sched).

Definition state_of (o : outcome) : sched :=
  match o with
  | Stopped st => st
  | StillRunning st => st
  end.

(** The [while next_run <= end_time] loop; [turns k] serves the [k]-th
    pass. *)
Fixpoint scheduled_loop (fuel : nat) (cfg : config) (end_time interval : Z)
    (turns : nat -> turn) (k : nat) (next_run : Z) (st : sched) : outcome :=
  match fuel with
  | O => StillRunning st
  | S fuel' =>
      if next_run <=? end_time then
        let st := scheduled_cycle cfg (turns k) next_run st in
        let next_run := clock st + interval in
        if next_run >? end_time then
          Stopped (finish {| sworld := run (logging INFO NextRunExceedsEnd) (sworld st);
                             clock := clock st;
                             started := started st |})
        else
          let wait := next_run - clock st in
          let st := if wait >? 0
                    then {| sworld := run (logging INFO (WaitingForNext wait);;
                                           logging INFO (NextCollectionAt next_run))
                                          (sworld st);
                            clock := clock st + wait + sleep_overrun (turns k);
                            started := started st |}
                    else st in
          scheduled_loop fuel' cfg end_time interval turns (S k) next_run st
      else Stopped (finish st)
  end.

(** [main] of [BiciMAD_Scheduled_Collector.py]: the wait for the start,
    which overruns by [start_overrun], then the loop.  [start_time] and
    [end_time], two local constants of [main] that its user edits, are
    arguments. *)
Definition scheduled_main (fuel : nat) (cfg : config) (start_time end_time : Z)
    (start_overrun : Z) (turns : nat -> turn) (now : Z) (w : world) : outcome :=
  let interval := interval_minutes cfg * 60 * 1000000 in
  let w := run (logging INFO ProgramStarting;;
                logging INFO (StartAt start_time);;
                logging INFO (EndAt end_time);;
                logging INFO (IntervalIs (interval_minutes cfg))) w in
  let w := if now <? start_time
           then run (logging INFO (WaitingForStart (start_time - now))) w
           else w in
  let now := if now <? start_time then start_time + start_overrun else now in
  scheduled_loop fuel cfg end_time interval turns 0 now
    {| sworld := w; clock := now; started := [] |}.

End Schedulers.

(** ** A serializer to run the model with *)

(** Compact JSON and unquoted CSV cells in UTF-8; a float is written with
    all its decimals. *)
Definition byte_string (bytes : list N) : string :=
  String.string_of_list_ascii (map Ascii.ascii_of_N bytes).

Definition utf8 (c : N) : list N :=
  (if c <? 128 then [c]
   else if c <? 2048 then [192 + c / 64; 128 + c mod 64]
   else if c <? 65536 then [224 + c / 4096; 128 + (c / 64) mod 64; 128 + c mod 64]
   else [240 + c / 262144; 128 + (c / 4096) mod 64; 128 + (c / 64) mod 64; 128 + c mod 64])%N.

Definition quote : string := byte_string [34%N].

Definition show_text (s : ustring) : string := byte_string (flat_map utf8 s).

Definition show_int (z : Z) : string :=
  if z <? 0 then ("-" +:+ pretty (Z.to_N (- z)))%string else pretty (Z.to_N z).

Definition pad_zeros (width : nat) (digits : string) : string :=
  (String.string_of_list_ascii (repeat (Ascii.ascii_of_N 48) (width - String.length digits)) +:+ digits)%string.

Definition show_float (f : float) : string :=
  match Prim2SF f with
  | S754_zero s => if s then "-0.0" else "0.0"
  | S754_infinity s => if s then "-Infinity" else "Infinity"
  | S754_nan => "NaN"
  | S754_finite s m e =>
      let sign := if s then "-" else EmptyString in
      match e with
      | Zneg p =>
          let scale := (10 ^ Npos p)%N in
          let scaled := (Npos m * 5 ^ Npos p)%N in
          sign +:+ pretty (scaled / scale)%N +:+ "." +:+
          pad_zeros (Pos.to_nat p) (pretty (scaled mod scale)%N)
      | _ => sign +:+ pretty (Npos m * 2 ^ Z.to_N e)%N +:+ ".0"
      end
  end%string.

Definition join (sep : string) (cells : list string) : string :=
  match cells with
  | [] => EmptyString
  | c :: cs => fold_left (fun acc x => acc +:+ sep +:+ x) cs c
  end%string.

Fixpoint show_json (v : pyval) : string :=
  match v with
  | PNone => "null"
  | PBool b => if b then "true" else "false"
  | PInt z => show_int z
  | PFloat f => show_float f
  | PStr s => quote +:+ show_text s +:+ quote
  | PList l => "[" +:+ join ", " (map show_json l) +:+ "]"
  | PDict d =>
      "{" +:+ join ", " (map (fun kv => quote +:+ show_text (fst kv) +:+ quote +:+ ": " +:+ show_json (snd kv)) d)
      +:+ "}"
  end%string.

Definition show_cell (v : pyval) : string :=
  match v with
  | PNone => EmptyString
  | PBool b => if b then "True" else "False"
  | PInt z => show_int z
  | PFloat f => show_float f
  | PStr s => show_text s
  | _ => show_json v
  end%string.

Definition show_row (r : station_record) : string :=
  (join "," [show_text (timestamp r); show_cell (station_id r); show_text (name r);
             show_text (address r); show_cell (longitude r); show_cell (latitude r);
             show_cell (total_bases r); show_cell (active_bases r);
             show_cell (available_bikes r); show_cell (free_bases r);
             show_cell (reservations r); show_int (status r)] +:+ byte_string [10%N])%string.

Definition columns : list string :=
  ["timestamp"; "station_id"; "name"; "address"; "longitude"; "latitude"; "total_bases";
   "active_bases"; "available_bikes"; "free_bases"; "reservations"; "status"]%string.

Definition plain_serializer : Serializer :=
  {| json_dump := show_json;
     csv_header := (join "," columns +:+ byte_string [10%N])%string;
     csv_body := fun rows => fold_right (fun r acc => show_row r +:+ acc)%string EmptyString rows |}.

(** ** Checks on the tables *)

(** The tables leave ASCII alone: a code point up to 127 is its own
    decomposition and has combining class 0. *)
Definition ascii_stable (U : UnicodeData) : bool :=
  forallb (fun c => ustring_eqb (decomposition c) [c] && (combining c =? 0)%N)
          (map N.of_nat (seq 0 128)).

(** ** Sample data *)

(** A station as the API sends it. *)
Definition sample_station (id : Z) : pyval :=
  PDict [(lit "id", PInt id);
         (lit "name", PStr (lit "Puerta del Sol n" ++ [186%N] ++ lit " 1"));
         (lit "address", PStr (lit "Plaza de Espa" ++ [241%N] ++ lit "a"));
         (lit "geometry", PDict [(lit "type", PStr (lit "Point"));
                                 (lit "coordinates", PList [PFloat (-3.75)%float; PFloat 40.5%float])]);
         (lit "dock_bikes", PInt 8);
         (lit "free_bases", PInt 5);
         (lit "total_bases", PInt 24);
         (lit "reservations", PInt 1);
         (lit "activate", PInt 1)].

(** A station with more bikes and free bases than bases. *)
Definition crowded_station : pyval :=
  PDict [(lit "id", PInt 2);
         (lit "name", PStr (lit "Atocha"));
         (lit "geometry", PDict [(lit "coordinates", PList [PFloat (-3.75)%float; PFloat 40.5%float])]);
         (lit "dock_bikes", PInt 8);
         (lit "free_bases", PInt 5);
         (lit "total_bases", PInt 10)].

(** A station whose total is missing. *)
Definition untotalled_station : pyval :=
  PDict [(lit "id", PInt 3);
         (lit "geometry", PDict [(lit "coordinates", PList [PFloat (-3.75)%float; PFloat 40.5%float])]);
         (lit "dock_bikes", PInt 8);
         (lit "free_bases", PInt 5)].

(** Two stations with an empty coordinate list; the second has a number
    for a name. *)
Definition unplaced_station : pyval :=
  PDict [(lit "id", PInt 4);
         (lit "name", PStr (lit "Cibeles"));
         (lit "geometry", PDict [(lit "coordinates", PList [])])].

Definition misnamed_unplaced_station : pyval :=
  PDict [(lit "id", PInt 5);
         (lit "name", PInt 5);
         (lit "geometry", PDict [(lit "coordinates", PList [])])].

Definition payload_of (entries : list pyval) : pyval :=
  PDict [(lit "code", PStr (lit "00")); (lit "data", PList entries)].

Definition ten_stations : list pyval := map sample_station [1; 2; 3; 4; 5; 6; 7; 8; 9; 10].

(** A cycle at 09:00:00 on 10 April 2025 in which every write succeeds. *)
Definition morning (answer : http_outcome) : cycle_env :=
  {| http := answer;
     snapshot_stamp := ("20250410", "090000")%string;
     snapshot_io := None;
     extract_stamp := lit "2025-04-10 09:00:00";
     history_io := None;
     csv_stamp := ("20250410", "090001")%string;
     daily_io := None |}.

(** The same cycle, with a disk that refuses the snapshot. *)
Definition morning_without_snapshot (answer : http_outcome) : cycle_env :=
  {| http := answer;
     snapshot_stamp := ("20250410", "090000")%string;
     snapshot_io := Some OSError;
     extract_stamp := lit "2025-04-10 09:00:00";
     history_io := None;
     csv_stamp := ("20250410", "090001")%string;
     daily_io := None |}.

Definition new_world : world :=
  {| stats := zero_stats; files := ∅; log := [] |}.

(** A row of the day before, and a world in which cycles have run: a
    history file, counters, a log. *)
Definition earlier_row : station_record :=
  {| timestamp := lit "2025-04-09 09:00:00";
     station_id := PInt 1;
     name := lit "Puerta del Sol n. 1";
     address := lit "Plaza de Espana";
     longitude := PFloat (-3.75)%float;
     latitude := PFloat 40.5%float;
     total_bases := PInt 24;
     active_bases := PInt 20;
     available_bikes := PInt 11;
     free_bases := PInt 9;
     reservations := PInt 0;
     status := 1 |}.

Definition seasoned_world : world :=
  {| stats := {| collections_made := 3; total_files := 3; errors := 1 |};
     files := {[ main_csv_path := @to_csv plain_serializer true [earlier_row] ]};
     log := [(INFO, StartingCollection); (INFO, CollectionSucceeded)] |}.

(** ** Counters as an offset *)

Definition stats_add (a b : collection_stats) : collection_stats :=
  {| collections_made := collections_made a + collections_made b;
     total_files := total_files a + total_files b;
     errors := errors a + errors b |}.

Definition with_stats (s : collection_stats) (w : world) : world :=
  {| stats := s; files := files w; log := log w |}.

(** The world [w] with [k] added to its counters. *)
Definition shift (k : collection_stats) (w : world) : world :=
  with_stats (stats_add k (stats w)) w.

(** A computation that only ever adds to the counters: run with [k] more
    on every counter, it gives the same result, files and log, and
    counters that are [k] more. *)
Definition additive {A} (m : M A) : Prop :=
  forall k w, m (shift k w) = (fst (m w), shift k (snd (m w))).

(** ** A window *)

Definition sample_config : config :=
  {| access_token := Some (lit "token"); interval_minutes := 120 |}.

(** 120 minutes, and 10 April 2025 at 09:00:00, in microseconds. *)
Definition two_hours : Z := 120 * 60 * 1000000.
Definition nine_o_clock : Z := 1744268400000000.

(** Turns whose cycle fetches ten stations and lasts [duration]; the
    sleeps are exact. *)
Definition steady_turns (duration : Z) : nat -> turn := fun _ =>
  {| cycle := morning (HttpJson (payload_of ten_stations));
     cycle_duration := duration;
     sleep_overrun := 0 |}.

(** Turns whose fetch fails after [duration]. *)
Definition offline_turns (duration : Z) : nat -> turn := fun _ =>
  {| cycle := morning HttpRequestException;
     cycle_duration := duration;
     sleep_overrun := 0 |}.

Definition count_logged (m : message) (w : world) : nat :=
  length (List.filter (fun e => match snd e, m with
                                | CollectionSucceeded, CollectionSucceeded => true
                                | StartingProcess, StartingProcess => true
                                | _, _ => false
                                end) (log w)).

(** ** Notions for the further properties *)

(** The ordinal indicator becomes a period. *)
Definition ordinal_to_period (c : N) : N := if (c =? 186)%N then 46%N else c.

Definition is_str (v : pyval) : bool :=
  match v with PStr _ => true | _ => false end.

(** A station that reports through its flat fields and its ['light']
    mapping, as after a change of the API. *)
Definition light_station : pyval :=
  PDict [(lit "id", PInt 6);
         (lit "name", PStr (lit "Retiro"));
         (lit "longitude", PFloat (-3.5)%float);
         (lit "latitude", PFloat 40.25%float);
         (lit "light", PDict [(lit "availability", PInt 4); (lit "free", PInt 7)])].

(** The warnings that the extraction logs for its rows: one for each row
    with a zero longitude or latitude, in the order of the rows. *)
Definition coordinate_warnings (rows : list station_record) : list (level * message) :=
  map (fun r => (WARNING, CoordinatesNotFound (station_id r) (name r)))
      (List.filter unresolved_coordinates rows).

Definition add_log (entries : list (level * message)) (w : world) : world :=
  {| stats := stats w; files := files w; log := log w ++ entries |}.

(** A station at the sentinel coordinates. *)
Definition origin_station : pyval :=
  PDict [(lit "id", PInt 9);
         (lit "name", PStr (lit "Sin lugar"));
         (lit "geometry", PDict [(lit "coordinates", PList [PInt 0; PInt 0])]);
         (lit "dock_bikes", PInt 1);
         (lit "free_bases", PInt 1)].

(** The files of a cycle: [filename] of [save_json_data] and
    [daily_csv_path] of [update_csv]. *)
Definition snapshot_path (env : cycle_env) : path :=
  (data_dir ++ [fst (snapshot_stamp env); "stations"%string])
  ++ [("stations_" +:+ snd (snapshot_stamp env) +:+ ".json")%string].

Definition daily_csv_path (env : cycle_env) : path :=
  (csv_dir ++ [fst (csv_stamp env)])
  ++ [("stations_" +:+ snd (csv_stamp env) +:+ ".csv")%string].

(** The history file after an append of [rows]. *)
Definition appended {ser : Serializer} (rows : list station_record) (w : world) : string :=
  match files w !! main_csv_path with
  | Some old => (old +:+ csv_body rows)%string
  | None => (csv_header +:+ csv_body rows)%string
  end.

(** The history file has kept what it held: [w'] has the history of [w]
    followed by some bytes. *)
Definition history_kept (w w' : world) : Prop :=
  forall old, files w !! main_csv_path = Some old ->
              exists suffix, files w' !! main_csv_path = Some (old +:+ suffix)%string.

(** A computation under which the history file keeps what it holds. *)
Definition keeps_history {A} (m : M A) : Prop := forall w, history_kept w (snd (m w)).

(** An answer of the API without stations. *)
Definition error_payload : pyval :=
  PDict [(lit "code", PStr (lit "80")); (lit "description", PStr (lit "token expired"))].

(** The world after a change of the counters, and after the [except]
    clause of [collect_data]. *)
Definition bump (f : collection_stats -> collection_stats) (w : world) : world :=
  {| stats := f (stats w); files := files w; log := log w |}.

Definition failed (e : exn) (w : world) : world :=
  bump incr_errors (add_log [(ERROR, CollectionError e)] w).

(** Appends of several record sets, one [update_csv] after the other. *)
Fixpoint update_csv_all {ser : Serializer} (cycles : list (cycle_env * list station_record))
  : M unit :=
  match cycles with
  | [] => mret tt
  | (env, rows) :: rest => update_csv env (Some rows);; update_csv_all rest
  end.

Definition concat_bodies {ser : Serializer} (cycles : list (cycle_env * list station_record))
  : string :=
  fold_right (fun c acc => (csv_body (snd c) +:+ acc)%string) EmptyString cycles.

(** The cycle of [morning] with a disk that refuses the per-cycle file. *)
Definition morning_without_daily (answer : http_outcome) : cycle_env :=
  {| http := answer;
     snapshot_stamp := ("20250410", "090000")%string;
     snapshot_io := None;
     extract_stamp := lit "2025-04-10 09:00:00";
     history_io := None;
     csv_stamp := ("20250410", "090001")%string;
     daily_io := Some OSError |}.


(** The clock when the windowed loop is entered. *)
Definition loop_entry (start_time start_overrun now : Z) : Z :=
  if now <? start_time then start_time + start_overrun else now.

Definition tokenless : config := {| access_token := None; interval_minutes := 120 |}.

(** ** The import script *)

(** [src/data_processing/create_db.py] runs from top to bottom.  Its calls
    into [os], [pandas] and [sqlite3] are steps with an outcome given from
    outside; the script is what it does with them: the events it leaves,
    in order. *)
Module CreateDb.

(** The statements of the [try] block. *)
Inductive step :=
| Connect
| ReadStations
| ReadStatus
| ReplaceStations
| IndexStationsPublicId
| ReplaceStatus
| IndexStatusPublicId
| IndexStatusTimestamp
| IndexStatusRealStatus
| Close.

(** What a statement can raise: a [sqlite3.Error] or another
    [Exception]. *)
Inductive failure := SqliteError | OtherException.

Inductive printed :=
| StationsFileMissing
| StatusFileMissing
| Done (s : step)
| SqliteErrorMessage
| UnexpectedErrorMessage.

Inductive event :=
| MakeDirs (dir : path)
| Did (s : step)
| Print (m : printed)
| Exit.

(** What the script finds: whether the two CSV files exist, and for each
    statement of the [try] block whether it raises. *)
Record env := {
  stations_csv : bool;
  status_csv : bool;
  outcome : step -> option failure
}.

Definition program : list step :=
  [Connect; ReadStations; ReadStatus; ReplaceStations; IndexStationsPublicId;
   ReplaceStatus; IndexStatusPublicId; IndexStatusTimestamp; IndexStatusRealStatus; Close].

(** The statements followed by a [print]: all but the first two indexes of
    [station_status], which share the message of the third. *)
Definition announced (s : step) : bool :=
  match s with
  | IndexStatusPublicId | IndexStatusTimestamp => false
  | _ => true
  end.

(** The [try] block with its two [except] clauses. *)
Fixpoint try_block (e : env) (steps : list step) : list event :=
  match steps with
  | [] => []
  | s :: rest =>
      match outcome e s with
      | Some SqliteError => [Print SqliteErrorMessage]
      | Some OtherException => [Print UnexpectedErrorMessage]
      | None =>
          Did s :: (if announced s then [Print (Done s)] else []) ++ try_block e rest
      end
  end.

Definition script (e : env) : list event :=
  [MakeDirs ["data"; "cleaned"]%string; MakeDirs ["data"; "processed"]%string]
  ++ (if negb (stations_csv e) then [Print StationsFileMissing; Exit]
      else if negb (status_csv e) then [Print StatusFileMissing; Exit]
      else try_block e program).

(** A run in which the unique index on the stations cannot be created. *)
Definition duplicate_ids : env :=
  {| stations_csv := true;
     status_csv := true;
     outcome := fun s => match s with IndexStationsPublicId => Some SqliteError | _ => None end |}.

Definition no_status_file : env :=
  {| stations_csv := true; status_csv := false; outcome := fun _ => None |}.

End CreateDb.

(* ================================================================== *)
(** * Properties *)

(** ** Text normalisation *)

Lemma ascii_stable_spec (U : UnicodeData) (c : N) :
  ascii_stable U = true -> is_ascii c = true ->
  decomposition c = [c] /\ combining c = 0%N.
Proof.
  unfold ascii_stable, is_ascii. intros Hall Hc.
  apply N.leb_le in Hc.
  rewrite forallb_forall in Hall.
  specialize (Hall c).
  assert (Hin : In c (map N.of_nat (seq 0 128))).
  { apply in_map_iff. exists (N.to_nat c). split; [lia|].
    apply in_seq. lia. }
  apply Hall in Hin. apply andb_true_iff in Hin as [Hd Hc0].
  unfold ustring_eqb in Hd. apply bool_decide_eq_true in Hd.
  apply N.eqb_eq in Hc0. auto.
Qed.

Lemma filter_ascii_all (s : ustring) :
  forallb is_ascii (List.filter is_ascii s) = true.
Proof.
  induction s as [|c s IH]; [reflexivity|].
  cbn [List.filter]. destruct (is_ascii c) eqn:Hc; [|exact IH].
  cbn [forallb]. rewrite Hc. exact IH.
Qed.

Lemma filter_id {A} (p : A -> bool) (s : list A) :
  forallb p s = true -> List.filter p s = s.
Proof.
  induction s as [|c s IH]; simpl; [reflexivity|].
  intros [Hc Hs]%andb_true_iff. rewrite Hc, IH; auto.
Qed.

(** A pattern that holds a non-ASCII code point matches nowhere in an
    ASCII text. *)
Lemma starts_with_ascii (old s : ustring) :
  existsb (fun c => negb (is_ascii c)) old = true ->
  forallb is_ascii s = true -> starts_with old s = false.
Proof.
  revert s. induction old as [|a old IH]; simpl; [discriminate|].
  intros [|b s] Hex Hs; [reflexivity|]. simpl in Hs.
  apply andb_true_iff in Hs as [Hb Hs].
  destruct (N.eqb_spec a b) as [->|Hne]; simpl; [|reflexivity].
  rewrite Hb in Hex. simpl in Hex. auto.
Qed.

Lemma replace_ascii (old new s : ustring) :
  existsb (fun c => negb (is_ascii c)) old = true ->
  forallb is_ascii s = true -> replace old new s = s.
Proof.
  intros Hold. unfold replace.
  induction s as [|c s IH]; [reflexivity|].
  intros Hs. cbn [replace_from].
  rewrite (starts_with_ascii old (c :: s) Hold Hs).
  simpl in Hs. apply andb_true_iff in Hs as [_ Hs].
  rewrite IH; auto.
Qed.

Section NormalizerFacts.
Context {U : UnicodeData}.
Hypothesis tables_ok : ascii_stable U = true.

Lemma decomposition_ascii (s : ustring) :
  forallb is_ascii s = true -> flat_map decomposition s = s.
Proof.
  induction s as [|c s IH]; simpl; [reflexivity|].
  intros [Hc Hs]%andb_true_iff.
  destruct (ascii_stable_spec U c tables_ok Hc) as [-> _].
  simpl. rewrite IH; auto.
Qed.

Lemma canonical_order_ascii (s : ustring) :
  forallb is_ascii s = true -> canonical_order s = s.
Proof.
  induction s as [|c s IH]; simpl; [reflexivity|].
  intros [Hc Hs]%andb_true_iff.
  destruct (ascii_stable_spec U c tables_ok Hc) as [_ ->].
  simpl. rewrite IH; auto.
Qed.

Lemma no_marks_in_ascii (s : ustring) :
  forallb is_ascii s = true -> forallb (fun c => (combining c =? 0)%N) s = true.
Proof.
  induction s as [|c s IH]; simpl; [reflexivity|].
  intros [Hc Hs]%andb_true_iff.
  destruct (ascii_stable_spec U c tables_ok Hc) as [_ ->].
  simpl. auto.
Qed.

(** An ASCII text goes through [normalize_text] unchanged. *)
Lemma normalize_str_ascii (s : ustring) :
  forallb is_ascii s = true -> normalize_str s = s.
Proof.
  intros Hs. unfold normalize_str, nfkd.
  rewrite (replace_ascii [110%N; 186%N]), (replace_ascii [186%N]) by (reflexivity || exact Hs).
  rewrite decomposition_ascii, canonical_order_ascii by exact Hs.
  rewrite (filter_id _ s (no_marks_in_ascii s Hs)).
  apply filter_id, Hs.
Qed.

Lemma normalize_str_is_ascii (s : ustring) :
  forallb is_ascii (normalize_str s) = true.
Proof. unfold normalize_str. apply filter_ascii_all. Qed.

End NormalizerFacts.

(** C7. Normalising twice is normalising once: for every string [s],
    [normalize_text] returns a text, and [normalize_text] of that text
    returns it again.  The Unicode tables are those of [unicodedata], of
    which the proof uses that they leave ASCII alone. *)
Theorem normalize_text_idempotent (U : UnicodeData) (s : ustring) :
  ascii_stable U = true ->
  exists o, normalize_text (PStr s) = Ok o /\ normalize_text (PStr o) = Ok o.
Proof.
  intros HU.
  assert (Hfix : forall t, normalize_str (normalize_str t) = normalize_str t).
  { intros t. apply normalize_str_ascii; [exact HU|apply normalize_str_is_ascii]. }
  destruct s as [|c s].
  - exists []. split; reflexivity.
  - exists (normalize_str (c :: s)). split; [reflexivity|].
    unfold normalize_text.
    destruct (normalize_str (c :: s)) as [|c' s'] eqn:Hn; [reflexivity|].
    simpl. rewrite <- Hn, Hfix. reflexivity.
Qed.

Lemma normalize_text_idempotent_witness :
  exists o, @normalize_text latin_tables (PStr [69; 115; 112; 97; 241; 97; 32; 110; 186]%N) = Ok o
            /\ @normalize_text latin_tables (PStr o) = Ok o.
Proof.
  apply (normalize_text_idempotent latin_tables [69; 115; 112; 97; 241; 97; 32; 110; 186]%N).
  vm_compute. reflexivity.
Defined.

(** ** The result monad *)

Lemma bind_Ok {A B} (m : result A) (f : A -> result B) (b : B) :
  m ≫= f = Ok b -> exists a, m = Ok a /\ f a = Ok b.
Proof. destruct m as [a|e]; [|discriminate]. intros H. exists a. auto. Qed.

Lemma bind_Ok_l {A B} (a : A) (f : A -> result B) : Ok a ≫= f = f a.
Proof. reflexivity. Qed.

Ltac row_step := cbn [mbind result_bind py_get].

Ltac bind_inv H :=
  repeat (let a := fresh "v" in
          let E := fresh "E" in
          apply bind_Ok in H as (a & E & H); cbv beta in H).

(** ** Extraction of one station *)

Lemma py_get_dict (d : list (ustring * pyval)) (k : ustring) (default : pyval) :
  py_get (PDict d) k default = Ok (dict_get d k default).
Proof. reflexivity. Qed.

(** C5. In the record of every station that is extracted, [active_bases]
    is the sum [available_bikes + free_bases] of the record's own fields,
    taken after the fallbacks. *)
Theorem active_bases_is_sum {U : UnicodeData} (ts : ustring) (station : pyval) (r : station_record) :
  station_row ts station = Ok r ->
  py_add (available_bikes r) (free_bases r) = Ok (active_bases r) /\
  (forall bikes free,
     available_bikes r = PInt bikes -> free_bases r = PInt free ->
     active_bases r = PInt (bikes + free)).
Proof.
  intros H. unfold station_row in H. bind_inv H.
  injection H as <-. cbn [available_bikes free_bases active_bases].
  split; [assumption|].
  intros bikes free -> ->.
  match goal with E : py_add (PInt bikes) (PInt free) = Ok _ |- _ => injection E as <- end.
  reflexivity.
Qed.

Lemma active_bases_is_sum_witness :
  exists r, @station_row latin_tables (lit "2025-04-10 09:00:00") (sample_station 1) = Ok r
            /\ py_add (available_bikes r) (free_bases r) = Ok (active_bases r)
            /\ active_bases r = PInt (8 + 5).
Proof.
  eexists. split; [vm_compute; reflexivity|].
  pose proof (@active_bases_is_sum latin_tables (lit "2025-04-10 09:00:00") (sample_station 1)
                _ eq_refl) as [Hsum Hint].
  split; [exact Hsum|]. apply Hint; reflexivity.
Defined.

(** C6, as the code has it. When the station's [total_bases] is missing
    or equal to zero, the record's [total_bases] is its [active_bases];
    otherwise it is the station's [total_bases] as sent, whatever the
    active bases are. *)
Theorem total_bases_fallback {U : UnicodeData} (ts : ustring)
    (d : list (ustring * pyval)) (r : station_record) :
  station_row ts (PDict d) = Ok r ->
  if eq_zero (dict_get d (lit "total_bases") (PInt 0))
  then total_bases r = active_bases r
  else total_bases r = dict_get d (lit "total_bases") (PInt 0).
Proof.
  intros H. unfold station_row in H. bind_inv H.
  injection H as <-. cbn [total_bases active_bases].
  match goal with
  | E : py_get (PDict d) (lit "total_bases") _ = Ok ?t |- _ =>
      rewrite py_get_dict in E; injection E as <-
  end.
  destruct (eq_zero (dict_get d (lit "total_bases") (PInt 0))); congruence.
Qed.

Lemma total_bases_fallback_witness :
  exists r,
    @station_row latin_tables (lit "2025-04-10 09:00:00") untotalled_station = Ok r
    /\ total_bases r = active_bases r
    /\ total_bases r = PInt 13.
Proof.
  eexists. split; [vm_compute; reflexivity|]. split; [|reflexivity].
  exact (@total_bases_fallback latin_tables (lit "2025-04-10 09:00:00")
           [(lit "id", PInt 3);
            (lit "geometry", PDict [(lit "coordinates", PList [PFloat (-3.75)%float; PFloat 40.5%float])]);
            (lit "dock_bikes", PInt 8);
            (lit "free_bases", PInt 5)] _ eq_refl).
Defined.

(** C6 fails as stated: a station sent with 10 bases, 8 bikes and 5 free
    bases is extracted with [total_bases = 10] below [active_bases = 13]. *)
Lemma total_bases_below_active :
  exists r,
    @station_row latin_tables (lit "2025-04-10 09:00:00") crowded_station = Ok r
    /\ total_bases r = PInt 10
    /\ active_bases r = PInt 13
    /\ ~ (10 >= 13).
Proof.
  eexists. split; [vm_compute; reflexivity|].
  split; [reflexivity|]. split; [reflexivity|]. lia.
Qed.

(** ** Extraction of a batch *)

Section BatchFacts.
Context {U : UnicodeData}.

(** The loop only logs. *)
Lemma extract_rows_frame (ts : ustring) (l : list pyval) (w : world) :
  stats (snd (extract_rows ts l w)) = stats w /\
  files (snd (extract_rows ts l w)) = files w.
Proof.
  revert w. induction l as [|s l IH]; intros w; [split; reflexivity|].
  cbn [extract_rows]. unfold mbind, M_bind, lift.
  destruct (station_row ts s) as [r|e]; [|split; reflexivity].
  destruct (unresolved_coordinates r); cbn.
  - match goal with |- context [extract_rows ts l ?w1] =>
      destruct (IH w1) as [Hs Hf]; destruct (extract_rows ts l w1) as [[rows|e] w2]
    end; cbn in *; auto.
  - destruct (IH w) as [Hs Hf]. destruct (extract_rows ts l w) as [[rows|e] w2]; cbn in *; auto.
Qed.

(** Entries that all extract give their rows, in order. *)
Lemma extract_rows_ok (ts : ustring) (l : list pyval) (rows : list station_record) (w : world) :
  Forall2 (fun s r => station_row ts s = Ok r) l rows ->
  fst (extract_rows ts l w) = Ok rows.
Proof.
  intros H. revert w. induction H as [|s r l rows Hs _ IH]; intros w; [reflexivity|].
  cbn [extract_rows]. unfold mbind, M_bind, lift. rewrite Hs.
  destruct (unresolved_coordinates r); cbn.
  - match goal with |- context [extract_rows ts l ?w1] =>
      specialize (IH w1); destruct (extract_rows ts l w1) as [[rows'|e] w2]
    end; cbn in *; congruence.
  - specialize (IH w). destruct (extract_rows ts l w) as [[rows'|e] w2]; cbn in *; congruence.
Qed.

(** An entry that raises makes the loop raise. *)
Lemma extract_rows_raises (ts : ustring) (l : list pyval) (w : world) :
  Exists (fun s => exists e, station_row ts s = Raise e) l ->
  exists e, fst (extract_rows ts l w) = Raise e.
Proof.
  intros H. revert w. induction l as [|s l IH]; intros w; [inversion H|].
  cbn [extract_rows]. unfold mbind, M_bind, lift.
  destruct (station_row ts s) as [r|e] eqn:Hs; [|exists e; reflexivity].
  assert (Hl : Exists (fun s => exists e, station_row ts s = Raise e) l).
  { inversion H as [? ? [e He]|]; subst; [congruence|assumption]. }
  destruct (unresolved_coordinates r); cbn.
  - match goal with |- context [extract_rows ts l ?w1] =>
      destruct (IH Hl w1) as [e He]; destruct (extract_rows ts l w1) as [[rows'|e'] w2]
    end; cbn in *; [discriminate|eauto].
  - destruct (IH Hl w) as [e He]. destruct (extract_rows ts l w) as [[rows'|e'] w2]; cbn in *;
      [discriminate|eauto].
Qed.

Lemma dict_mem_nonempty (k : ustring) (d : list (ustring * pyval)) :
  dict_mem k d = true -> truthy (PDict d) = true.
Proof. destruct d; [discriminate|reflexivity]. Qed.

(** What [process_stations_data] does with a payload whose ['data'] is a
    list. *)
Lemma process_stations_data_list (env : cycle_env) (data : pyval) (entries : list pyval) (w : world) :
  py_subscript data (lit "data") = Ok (PList entries) ->
  fst (process_stations_data env data w) =
  match fst (extract_rows (extract_stamp env) entries w) with
  | Ok [] => Ok None
  | Ok rows => Ok (Some rows)
  | Raise e => Raise e
  end.
Proof.
  intros H. destruct data as [| | | | | |d]; try discriminate.
  cbn [py_subscript] in H.
  destruct (dict_mem (lit "data") d) eqn:Hmem; [|discriminate].
  unfold process_stations_data.
  rewrite (dict_mem_nonempty _ _ Hmem). cbn [negb].
  unfold mbind at 1. unfold M_bind at 1. unfold lift at 1. cbn [py_contains].
  rewrite Hmem. cbn [negb].
  unfold mbind at 1. unfold M_bind at 1. unfold lift at 1. cbn [py_subscript].
  rewrite Hmem. injection H as ->.
  unfold mbind at 1. unfold M_bind at 1. unfold lift at 1. cbn [py_iter].
  unfold mbind at 1. unfold M_bind at 1.
  destruct (extract_rows (extract_stamp env) entries w) as [[[|r rows]|e] w1]; reflexivity.
Qed.

End BatchFacts.

(** C1, as the code has it. For a payload whose ['data'] is a list: when
    every entry is extracted, the rows are exactly the records of the
    entries, in their order, and an empty list is reported as a failure
    ([None]); when the extraction of one entry raises, the whole
    extraction raises and no row is returned. *)
Theorem extraction_all_or_nothing {U : UnicodeData} (env : cycle_env) (data : pyval)
    (entries : list pyval) (w : world) :
  py_subscript data (lit "data") = Ok (PList entries) ->
  (forall rows, Forall2 (fun s r => station_row (extract_stamp env) s = Ok r) entries rows ->
     length rows = length entries /\
     fst (process_stations_data env data w) =
       Ok (match rows with [] => None | _ => Some rows end)) /\
  (Exists (fun s => exists e, station_row (extract_stamp env) s = Raise e) entries ->
     exists e, fst (process_stations_data env data w) = Raise e).
Proof.
  intros Hdata. rewrite (process_stations_data_list env data entries w Hdata). split.
  - intros rows Hrows. split; [symmetry; eapply Forall2_length; eassumption|].
    rewrite (extract_rows_ok _ _ _ w Hrows). destruct rows; reflexivity.
  - intros Hbad. destruct (extract_rows_raises _ _ w Hbad) as [e ->]. eauto.
Qed.

Lemma extraction_all_or_nothing_witness :
  (forall rows,
     Forall2 (fun s r => @station_row latin_tables (lit "2025-04-10 09:00:00") s = Ok r)
             ten_stations rows ->
     length rows = length ten_stations /\
     fst (@process_stations_data latin_tables (morning HttpRequestException)
            (payload_of ten_stations) new_world) =
       Ok (match rows with [] => None | _ => Some rows end)) /\
  (Exists (fun s => exists e, @station_row latin_tables (lit "2025-04-10 09:00:00") s = Raise e)
          ten_stations ->
     exists e, fst (@process_stations_data latin_tables (morning HttpRequestException)
                      (payload_of ten_stations) new_world) = Raise e).
Proof.
  apply (@extraction_all_or_nothing latin_tables (morning HttpRequestException)
           (payload_of ten_stations) ten_stations new_world).
  reflexivity.
Defined.

(** C1 fails as stated: ten stations that each extract, followed by one
    station without coordinates, give no record at all; the extraction
    raises, and the cycle ends with one error, no successful collection and
    no history file. *)
Lemma malformed_entry_fails_batch :
  Forall (fun s => exists r, @station_row latin_tables (lit "2025-04-10 09:00:00") s = Ok r)
         ten_stations
  /\ @station_row latin_tables (lit "2025-04-10 09:00:00") unplaced_station = Raise IndexError
  /\ fst (@process_stations_data latin_tables
            (morning (HttpJson (payload_of (ten_stations ++ [unplaced_station]))))
            (payload_of (ten_stations ++ [unplaced_station])) new_world) = Raise IndexError
  /\ (let w := snd (@collect_data latin_tables plain_serializer
                      (morning (HttpJson (payload_of (ten_stations ++ [unplaced_station]))))
                      new_world) in
      errors (stats w) = 1 /\ collections_made (stats w) = 0 /\ files w !! main_csv_path = None).
Proof.
  split.
  { repeat constructor; eexists; vm_compute; reflexivity. }
  split; [vm_compute; reflexivity|].
  split; [vm_compute; reflexivity|].
  vm_compute. auto.
Qed.

(** ** Stations without coordinates *)

(** C10, as the code has it. A station whose ['geometry'] holds a
    ['coordinates'] list of fewer than two elements is never extracted: its
    extraction raises, an [IndexError] when the name and the address
    normalise and otherwise the exception of [normalize_text]; and a
    payload whose list holds such a station makes the whole extraction
    raise. *)
Theorem short_coordinates_raise {U : UnicodeData} (ts : ustring)
    (d g : list (ustring * pyval)) (coords : list pyval) :
  dict_get d (lit "geometry") (PDict []) = PDict g ->
  dict_get g (lit "coordinates") (PList [PInt 0; PInt 0]) = PList coords ->
  (length coords < 2)%nat ->
  (exists e, station_row ts (PDict d) = Raise e) /\
  (forall n a,
     normalize_text (dict_get d (lit "name") (PStr [])) = Ok n ->
     normalize_text (dict_get d (lit "address") (PStr [])) = Ok a ->
     station_row ts (PDict d) = Raise IndexError) /\
  (forall env data entries w,
     py_subscript data (lit "data") = Ok (PList entries) ->
     In (PDict d) entries ->
     exists e, fst (process_stations_data env data w) = Raise e).
Proof.
  intros Hg Hc Hlen. revert ts.
  assert (Hrow : forall ts n a,
            normalize_text (dict_get d (lit "name") (PStr [])) = Ok n ->
            normalize_text (dict_get d (lit "address") (PStr [])) = Ok a ->
            station_row ts (PDict d) = Raise IndexError).
  { intros ts n a Hn Ha. unfold station_row.
    row_step. rewrite Hn. row_step. rewrite Ha. row_step. rewrite Hg. row_step. rewrite Hc.
    destruct coords as [|x [|y coords]]; [reflexivity| |simpl in Hlen; lia].
    cbn [py_getitem nth_error]. row_step. reflexivity. }
  assert (Hany : forall ts, exists e, station_row ts (PDict d) = Raise e).
  { intros ts. destruct (normalize_text (dict_get d (lit "name") (PStr []))) as [n|e] eqn:Hn.
    - destruct (normalize_text (dict_get d (lit "address") (PStr []))) as [a|e] eqn:Ha.
      + exists IndexError. eapply Hrow; reflexivity.
      + exists e. unfold station_row.
        row_step. rewrite Hn. row_step. rewrite Ha. reflexivity.
    - exists e. unfold station_row. row_step. rewrite Hn. reflexivity. }
  intros ts. split; [exact (Hany ts)|]. split; [exact (Hrow ts)|].
  intros env data entries w Hdata Hin.
  rewrite (process_stations_data_list env data entries w Hdata).
  destruct (extract_rows_raises (extract_stamp env) entries w) as [e ->]; [|eauto].
  apply Exists_exists. exists (PDict d). split; [apply list_elem_of_In; exact Hin|].
  destruct (Hany (extract_stamp env)) as [e He]. eauto.
Qed.

Lemma short_coordinates_raise_witness :
  (exists e, @station_row latin_tables (lit "2025-04-10 09:00:00") unplaced_station = Raise e) /\
  (forall n a,
     @normalize_text latin_tables (PStr (lit "Cibeles")) = Ok n ->
     @normalize_text latin_tables (PStr []) = Ok a ->
     @station_row latin_tables (lit "2025-04-10 09:00:00") unplaced_station = Raise IndexError) /\
  (forall env data entries w,
     py_subscript data (lit "data") = Ok (PList entries) ->
     In unplaced_station entries ->
     exists e, fst (@process_stations_data latin_tables env data w) = Raise e).
Proof.
  apply (@short_coordinates_raise latin_tables (lit "2025-04-10 09:00:00")
           [(lit "id", PInt 4);
            (lit "name", PStr (lit "Cibeles"));
            (lit "geometry", PDict [(lit "coordinates", PList [])])]
           [(lit "coordinates", PList [])] []).
  - reflexivity.
  - reflexivity.
  - simpl. lia.
Defined.

(** C10 fails as stated: a station with an empty coordinate list and a
    number for a name raises the [AttributeError] of [normalize_text],
    before its coordinates are read. *)
Lemma short_coordinates_other_error :
  py_get misnamed_unplaced_station (lit "geometry") (PDict [])
    = Ok (PDict [(lit "coordinates", PList [])])
  /\ @station_row latin_tables (lit "2025-04-10 09:00:00") misnamed_unplaced_station
     = Raise AttributeError
  /\ @station_row latin_tables (lit "2025-04-10 09:00:00") misnamed_unplaced_station
     <> Raise IndexError.
Proof.
  split; [reflexivity|]. split; [vm_compute; reflexivity|].
  vm_compute. discriminate.
Qed.

(** ** One cycle *)

Section CycleFacts.
Context {U : UnicodeData} {ser : Serializer}.

(** C2, on the code. After a fetch that raises a [RequestException] the
    cycle returns normally, the files are as they were, nothing is
    extracted, [collections_made] and [total_files] keep their values; the
    error counter has grown by 2, not by 1: the failure is counted in
    [get_station_info] and again in the [else] branch of [collect_data]. *)
Theorem collect_data_fetch_failure (env : cycle_env) (w : world) :
  http env = HttpRequestException ->
  collect_data env w =
  (Ok tt,
   {| stats := incr_errors (incr_errors (stats w));
      files := files w;
      log := log w ++ [(INFO, StartingCollection); (ERROR, FetchError); (ERROR, NoDataObtained)] |}).
Proof.
  intros H. unfold collect_data, try_except, collect_data_try, get_station_info.
  rewrite H. unfold mbind, M_bind, mret, M_ret. cbn. rewrite <- !app_assoc. reflexivity.
Qed.

(** C3, on the code. When the fetch gives a payload and the snapshot
    write raises, [save_json_data] does not return [None]: the exception
    leaves the [try] block of the cycle, is logged and counted as one
    error, and the cycle ends there, without extraction and without history
    append; the files are as they were. *)
Theorem collect_data_snapshot_failure (env : cycle_env) (data : pyval) (e : exn) (w : world) :
  http env = HttpJson data ->
  truthy data = true ->
  snapshot_io env = Some e ->
  collect_data env w =
  (Ok tt,
   {| stats := incr_errors (stats w);
      files := files w;
      log := log w ++ [(INFO, StartingCollection); (ERROR, CollectionError e)] |}).
Proof.
  intros Hh Ht Hio. unfold collect_data, try_except, collect_data_try, get_station_info.
  assert (Hsave : forall w1, save_json_data env data w1 = (Raise e, w1)).
  { intros w1. destruct data; try discriminate;
      unfold save_json_data, write_file, mbind, M_bind; rewrite Hio; reflexivity. }
  rewrite Hh. unfold mbind, M_bind, mret, M_ret. cbn [logging].
  rewrite Ht, Hsave. cbn. rewrite <- app_assoc. reflexivity.
Qed.

End CycleFacts.

Lemma collect_data_fetch_failure_witness :
  @collect_data latin_tables plain_serializer (morning HttpRequestException) seasoned_world =
  (Ok tt,
   {| stats := {| collections_made := 3; total_files := 3; errors := 3 |};
      files := files seasoned_world;
      log := log seasoned_world ++
             [(INFO, StartingCollection); (ERROR, FetchError); (ERROR, NoDataObtained)] |}).
Proof.
  exact (@collect_data_fetch_failure latin_tables plain_serializer
           (morning HttpRequestException) seasoned_world eq_refl).
Defined.

Lemma collect_data_snapshot_failure_witness :
  @collect_data latin_tables plain_serializer
     (morning_without_snapshot (HttpJson (payload_of ten_stations))) seasoned_world =
  (Ok tt,
   {| stats := {| collections_made := 3; total_files := 3; errors := 2 |};
      files := files seasoned_world;
      log := log seasoned_world ++
             [(INFO, StartingCollection); (ERROR, CollectionError OSError)] |}).
Proof.
  exact (@collect_data_snapshot_failure latin_tables plain_serializer
           (morning_without_snapshot (HttpJson (payload_of ten_stations)))
           (payload_of ten_stations) OSError seasoned_world eq_refl eq_refl eq_refl).
Defined.

(** On ten stations: the cycle that cannot write its snapshot extracts
    nothing and appends nothing, where the same cycle with a working disk
    creates the history file. *)
Lemma snapshot_failure_ends_cycle :
  (let w := snd (@collect_data latin_tables plain_serializer
                   (morning_without_snapshot (HttpJson (payload_of ten_stations))) new_world) in
   files w !! main_csv_path = None
   /\ log w = [(INFO, StartingCollection); (ERROR, CollectionError OSError)]
   /\ stats w = {| collections_made := 0; total_files := 0; errors := 1 |})
  /\ (let w := snd (@collect_data latin_tables plain_serializer
                      (morning (HttpJson (payload_of ten_stations))) new_world) in
      is_Some (files w !! main_csv_path)
      /\ stats w = {| collections_made := 1; total_files := 1; errors := 0 |}).
Proof.
  split.
  - vm_compute. auto.
  - split; [|vm_compute; reflexivity].
    vm_compute. eexists. reflexivity.
Qed.

(** ** The history file *)

Section HistoryFacts.
Context {ser : Serializer}.

Lemma update_csv_nonempty (env : cycle_env) (r : station_record) (rows : list station_record)
    (w : world) :
  history_io env = None ->
  files (snd (update_csv env (Some (r :: rows)) w)) !! main_csv_path =
  Some (match files w !! main_csv_path with
        | Some old => old +:+ csv_body (r :: rows)
        | None => csv_header +:+ csv_body (r :: rows)
        end)%string.
Proof.
  intros Hio. unfold update_csv, exists_file, append_file, write_file.
  unfold mbind, M_bind. rewrite Hio. cbn [fst snd logging files stats log].
  destruct (files w !! main_csv_path) as [old|] eqn:Hold.
  - rewrite bool_decide_eq_true_2 by eauto. cbn [fst snd logging files stats log].
    destruct (daily_io env); cbn [fst snd logging files stats log].
    + rewrite lookup_insert_eq. rewrite Hold. reflexivity.
    + rewrite lookup_insert_ne by discriminate.
      rewrite lookup_insert_eq. rewrite Hold. reflexivity.
  - rewrite bool_decide_eq_false_2 by (intros [? ?]; discriminate).
    cbn [fst snd logging files stats log].
    destruct (daily_io env); cbn [fst snd logging files stats log].
    + rewrite lookup_insert_eq. reflexivity.
    + rewrite lookup_insert_ne by discriminate.
      rewrite lookup_insert_eq. reflexivity.
Qed.

End HistoryFacts.

(** C8. When a non-empty record set is appended (the write of the history
    file succeeds): if the history file did not exist it now holds the
    header line followed by the lines of the records; if it existed it now
    holds its former bytes, unchanged and in their order, followed by the
    lines of the records without a header.  With an empty record set (or
    none) [update_csv] returns with every file as it was: the history is
    unchanged and no per-cycle file is written. *)
Theorem update_csv_history {ser : Serializer} (env : cycle_env) (rows : list station_record)
    (w : world) :
  (rows <> [] -> history_io env = None ->
   files (snd (update_csv env (Some rows) w)) !! main_csv_path =
   Some (match files w !! main_csv_path with
         | Some old => old +:+ csv_body rows
         | None => csv_header +:+ csv_body rows
         end)%string) /\
  (update_csv env (Some []) w = (Ok tt, snd (logging WARNING NoDataForCsv w)) /\
   update_csv env None w = (Ok tt, snd (logging WARNING NoDataForCsv w)) /\
   files (snd (update_csv env (Some []) w)) = files w /\
   files (snd (update_csv env None w)) = files w).
Proof.
  split.
  - intros Hrows Hio. destruct rows as [|r rows]; [congruence|].
    apply update_csv_nonempty, Hio.
  - repeat split.
Qed.

Lemma update_csv_history_witness :
  files (snd (@update_csv plain_serializer (morning HttpRequestException) (Some [earlier_row])
                seasoned_world)) !! main_csv_path =
  Some (@to_csv plain_serializer true [earlier_row] +:+ @csv_body plain_serializer [earlier_row])%string
  /\ files (snd (@update_csv plain_serializer (morning HttpRequestException) (Some [earlier_row])
                   new_world)) !! main_csv_path =
     Some (@csv_header plain_serializer +:+ @csv_body plain_serializer [earlier_row])%string.
Proof.
  split.
  - apply (proj1 (@update_csv_history plain_serializer (morning HttpRequestException)
                    [earlier_row] seasoned_world)); [discriminate|reflexivity].
  - apply (proj1 (@update_csv_history plain_serializer (morning HttpRequestException)
                    [earlier_row] new_world)); [discriminate|reflexivity].
Defined.

(** ** Counters across cycles *)

Lemma stats_add_zero (s : collection_stats) : stats_add s zero_stats = s.
Proof. destruct s. unfold stats_add. cbn. f_equal; lia. Qed.

Lemma shift_with_zero (w : world) : shift (stats w) (with_stats zero_stats w) = w.
Proof. destruct w. unfold shift, with_stats. cbn. rewrite stats_add_zero. reflexivity. Qed.

Lemma additive_ret {A} (a : A) : additive (mret a).
Proof. intros k w. reflexivity. Qed.

Lemma additive_bind {A B} (m : M A) (f : A -> M B) :
  additive m -> (forall a, additive (f a)) -> additive (m ≫= f).
Proof.
  intros Hm Hf k w. unfold mbind, M_bind. rewrite Hm.
  destruct (m w) as [[a|e] w1]; cbn [fst snd]; [apply Hf|reflexivity].
Qed.

Lemma additive_lift {A} (r : result A) : additive (lift r).
Proof. intros k w. reflexivity. Qed.

Lemma additive_logging (l : level) (m : message) : additive (logging l m).
Proof. intros k w. reflexivity. Qed.

Lemma additive_incr_errors : additive (update_stats incr_errors).
Proof.
  intros k w. unfold update_stats, shift, with_stats, stats_add, incr_errors. cbn.
  do 3 f_equal. lia.
Qed.

Lemma additive_incr_total_files : additive (update_stats incr_total_files).
Proof.
  intros k w. unfold update_stats, shift, with_stats, stats_add, incr_total_files. cbn.
  do 3 f_equal. lia.
Qed.

Lemma additive_incr_collections_made : additive (update_stats incr_collections_made).
Proof.
  intros k w. unfold update_stats, shift, with_stats, stats_add, incr_collections_made. cbn.
  do 3 f_equal. lia.
Qed.

Lemma additive_exists_file (p : path) : additive (exists_file p).
Proof. intros k w. reflexivity. Qed.

Lemma additive_write_file (io : option exn) (p : path) (content : string) :
  additive (write_file io p content).
Proof. intros k w. destruct io; reflexivity. Qed.

Lemma additive_append_file (io : option exn) (p : path) (content : string) :
  additive (append_file io p content).
Proof. intros k w. destruct io; reflexivity. Qed.

Lemma additive_try_except {A} (m : M A) (handler : exn -> M A) :
  additive m -> (forall e, additive (handler e)) -> additive (try_except m handler).
Proof.
  intros Hm Hh k w. unfold try_except. rewrite Hm.
  destruct (m w) as [[a|e] w1]; cbn [fst snd]; [reflexivity|apply Hh].
Qed.

Create HintDb additive.
#[local] Hint Resolve additive_ret additive_lift additive_logging additive_incr_errors
  additive_incr_total_files additive_incr_collections_made additive_exists_file
  additive_write_file additive_append_file : additive.

Ltac additive_step :=
  first
    [ apply additive_bind; [|intros ?]
    | apply additive_try_except; [|intros ?]
    | solve [auto with additive]
    | match goal with
      | |- additive (if ?b then _ else _) => destruct b
      | |- additive (match ?x with _ => _ end) => destruct x
      end ].

Section CounterFacts.
Context {U : UnicodeData} {ser : Serializer}.

Lemma additive_extract_rows (ts : ustring) (l : list pyval) : additive (extract_rows ts l).
Proof.
  induction l as [|s l IH]; cbn [extract_rows]; repeat additive_step.
Qed.

Lemma additive_process_stations_data (env : cycle_env) (data : pyval) :
  additive (process_stations_data env data).
Proof.
  unfold process_stations_data.
  repeat first [apply additive_extract_rows | additive_step].
Qed.

Lemma additive_update_csv (env : cycle_env) (df : option (list station_record)) :
  additive (update_csv env df).
Proof. unfold update_csv. repeat additive_step. Qed.

(** A cycle adds its increments to the counters it finds. *)
Lemma additive_collect_data (env : cycle_env) : additive (collect_data env).
Proof.
  unfold collect_data, collect_data_try, get_station_info, save_json_data.
  repeat first [apply additive_process_stations_data | apply additive_update_csv | additive_step].
Qed.

Lemma additive_run_pending (later : list cycle_env) : additive (run_pending later).
Proof.
  induction later as [|env later IH]; cbn [run_pending];
    repeat first [apply additive_collect_data | additive_step].
Qed.

End CounterFacts.

(** C4, as the code has it. With one collector, as in the interval mode,
    the cycles add to the counters they find: after any run of cycles the
    counters are those before the run plus what the run counts from zero.
    In the windowed mode a collector is created for every cycle, so that
    the counters after a cycle are what that cycle alone counts from zero,
    whatever the cycles before have counted. *)
Theorem counters_per_collector {U : UnicodeData} {ser : Serializer} :
  (forall later w,
     stats (snd (run_pending later w)) =
     stats_add (stats w) (stats (snd (run_pending later (with_stats zero_stats w))))) /\
  (forall cfg t next_run st c token,
     access_token cfg = Some (c :: token) ->
     stats (sworld (scheduled_cycle cfg t next_run st)) =
     stats (snd (collect_data (cycle t)
                   (with_stats zero_stats (snd (logging INFO StartingProcess (sworld st))))))).
Proof.
  split.
  - intros later w.
    pose proof (additive_run_pending later (stats w) (with_stats zero_stats w)) as H.
    rewrite shift_with_zero in H. rewrite H. reflexivity.
  - intros cfg t next_run st c token Htok.
    set (w1 := with_stats zero_stats (snd (logging INFO StartingProcess (sworld st)))).
    assert (Hrun : forall r w2, collect_data (cycle t) w1 = (r, w2) ->
              stats (sworld (scheduled_cycle cfg t next_run st)) = stats w2).
    { intros r w2 Hc. unfold scheduled_cycle, run, try_except, BiciMADCollector.
      unfold mbind, M_bind. cbn [sworld logging fst snd]. rewrite Htok.
      change (collect_data (cycle t) _) with (collect_data (cycle t) w1).
      rewrite Hc. destruct r as [[]|e]; reflexivity. }
    destruct (collect_data (cycle t) w1) as [r w2] eqn:Hc.
    apply (Hrun r w2 eq_refl).
Qed.

Lemma counters_per_collector_witness :
  stats (sworld (@scheduled_cycle latin_tables plain_serializer sample_config
                   (offline_turns 2000000 0%nat) nine_o_clock
                   {| sworld := seasoned_world; clock := nine_o_clock; started := [] |})) =
  {| collections_made := 0; total_files := 0; errors := 2 |}.
Proof.
  exact (proj2 (@counters_per_collector latin_tables plain_serializer)
           sample_config (offline_turns 2000000 0%nat) nine_o_clock
           {| sworld := seasoned_world; clock := nine_o_clock; started := [] |}
           116%N (lit "oken") eq_refl).
Defined.

(** C4 fails as stated: in a window of two cycles that both succeed, the
    counter of collections stands at 1 when the program ends, and the file
    counter at 1, although each of the two cycles wrote its snapshot. *)
Lemma windowed_counters_start_over :
  exists st,
    @scheduled_main latin_tables plain_serializer 5 sample_config
      nine_o_clock (nine_o_clock + 2 * two_hours) 0 (steady_turns 2000000)
      (nine_o_clock - 1000000) new_world = Stopped st
    /\ length (started st) = 2%nat
    /\ count_logged CollectionSucceeded (sworld st) = 2%nat
    /\ collections_made (stats (sworld st)) = 1
    /\ total_files (stats (sworld st)) = 1.
Proof.
  eexists. split; [vm_compute; reflexivity|].
  vm_compute. auto.
Qed.

(** ** The windowed scheduler *)

Section WindowFacts.
Context {U : UnicodeData} {ser : Serializer}.

Lemma started_scheduled_cycle (cfg : config) (t : turn) (next_run : Z) (st : sched) :
  started (scheduled_cycle cfg t next_run st) = started st ++ [(next_run, clock st)].
Proof. reflexivity. Qed.

(** Every trigger time recorded by the loop is within the window, however
    far the loop has got. *)
Lemma scheduled_loop_triggers (fuel : nat) (cfg : config) (end_time interval : Z)
    (turns : nat -> turn) (k : nat) (next_run : Z) (st : sched) :
  Forall (fun p => fst p <= end_time) (started st) ->
  Forall (fun p => fst p <= end_time)
         (started (state_of (scheduled_loop fuel cfg end_time interval turns k next_run st))).
Proof.
  revert k next_run st. induction fuel as [|fuel IH]; intros k next_run st Hst; [exact Hst|].
  cbn [scheduled_loop]. destruct (Z.leb_spec next_run end_time) as [Hle|Hgt]; [|exact Hst].
  assert (Hnow : Forall (fun p => fst p <= end_time)
                   (started (scheduled_cycle cfg (turns k) next_run st))).
  { rewrite started_scheduled_cycle. apply Forall_app. split; [exact Hst|].
    constructor; [exact Hle|constructor]. }
  destruct (clock (scheduled_cycle cfg (turns k) next_run st) + interval >? end_time);
    [exact Hnow|].
  apply IH. destruct (_ >? 0); exact Hnow.
Qed.

(** One pass of the loop when the interval is positive: the sleep lasts
    the interval and its overrun. *)
Lemma scheduled_loop_step (fuel : nat) (cfg : config) (end_time interval : Z)
    (turns : nat -> turn) (k : nat) (next_run : Z) (st : sched) :
  0 < interval ->
  scheduled_loop (S fuel) cfg end_time interval turns k next_run st =
  if next_run <=? end_time then
    if clock st + cycle_duration (turns k) + interval >? end_time then
      Stopped (finish {| sworld := run (logging INFO NextRunExceedsEnd)
                                  (sworld (scheduled_cycle cfg (turns k) next_run st));
                      clock := clock st + cycle_duration (turns k);
                      started := started st ++ [(next_run, clock st)] |})
    else
      scheduled_loop fuel cfg end_time interval turns (S k)
        (clock st + cycle_duration (turns k) + interval)
        {| sworld := run (logging INFO (WaitingForNext interval);;
                          logging INFO (NextCollectionAt
                                          (clock st + cycle_duration (turns k) + interval)))
                         (sworld (scheduled_cycle cfg (turns k) next_run st));
           clock := clock st + cycle_duration (turns k) + interval + sleep_overrun (turns k);
           started := started st ++ [(next_run, clock st)] |}
  else Stopped (finish st).
Proof.
  intros Hpos. cbn [scheduled_loop].
  destruct (next_run <=? end_time); [|reflexivity].
  cbn [scheduled_cycle clock started sworld].
  destruct (clock st + cycle_duration (turns k) + interval >? end_time); [reflexivity|].
  replace (clock st + cycle_duration (turns k) + interval
           - (clock st + cycle_duration (turns k))) with interval by lia.
  replace (interval >? 0) with true by (symmetry; apply Z.gtb_gt; lia).
  reflexivity.
Qed.

(** With a positive interval and delays that are not negative the loop
    ends: every pass moves the trigger time forward by an interval at
    least. *)
Lemma scheduled_loop_stops (fuel : nat) (cfg : config) (end_time interval : Z)
    (turns : nat -> turn) (k : nat) (next_run : Z) (st : sched) :
  0 < interval ->
  (forall j, 0 <= cycle_duration (turns j) /\ 0 <= sleep_overrun (turns j)) ->
  next_run <= clock st ->
  end_time - next_run < Z.of_nat fuel * interval ->
  exists st', scheduled_loop (S fuel) cfg end_time interval turns k next_run st = Stopped st'.
Proof.
  intros Hpos Hturns. revert k next_run st.
  induction fuel as [|fuel IH]; intros k next_run st Hclock Hfuel;
    rewrite scheduled_loop_step by exact Hpos.
  - destruct (Z.leb_spec next_run end_time); [lia|eauto].
  - destruct (Z.leb_spec next_run end_time); [|eauto].
    destruct (Hturns k) as [Hd Hs].
    destruct (clock st + cycle_duration (turns k) + interval >? end_time); [eauto|].
    apply IH; cbn [clock]; nia.
Qed.

End WindowFacts.

Ltac split_cmp :=
  match goal with
  | |- context [(?a <=? ?b)] => destruct (Z.leb_spec a b)
  | |- context [(?a >? ?b)] => rewrite (Z.gtb_ltb a b); destruct (Z.ltb_spec b a)
  | |- context [(?a <? ?b)] => destruct (Z.ltb_spec a b)
  end.

(** C9, as the code has it. In the windowed mode no cycle starts whose
    trigger time is after the end time, at any point of the run.  With a
    start in the future and an
    end three intervals after the start, the loop ends after at most four
    cycles, and it runs four cycles exactly when nothing takes any time:
    the first wake-up is on time and the first three cycles and the sleeps
    after the first two are instantaneous.  The trigger time of a cycle is
    computed from the end of the cycle before it, so any delay moves the
    fourth trigger past the end. *)
Theorem windowed_schedule {U : UnicodeData} {ser : Serializer} :
  (forall fuel cfg start_time end_time start_overrun turns now w,
     Forall (fun p => fst p <= end_time)
       (started (state_of
          (scheduled_main fuel cfg start_time end_time start_overrun turns now w)))) /\
  (forall fuel cfg start_time start_overrun turns now w,
     now < start_time ->
     0 < interval_minutes cfg ->
     0 <= start_overrun ->
     (forall k, 0 <= cycle_duration (turns k) /\ 0 <= sleep_overrun (turns k)) ->
     exists st,
       scheduled_main (S (S (S (S fuel)))) cfg start_time
         (start_time + 3 * (interval_minutes cfg * 60 * 1000000))
         start_overrun turns now w = Stopped st
       /\ (length (started st) <= 4)%nat
       /\ (length (started st) = 4%nat <->
           start_overrun
           + cycle_duration (turns 0%nat) + sleep_overrun (turns 0%nat)
           + cycle_duration (turns 1%nat) + sleep_overrun (turns 1%nat)
           + cycle_duration (turns 2%nat) = 0)).
Proof.
  split.
  - intros fuel cfg start_time end_time start_overrun turns now w.
    unfold scheduled_main. apply scheduled_loop_triggers. constructor.
  - intros fuel cfg start_time start_overrun turns now w Hnow Hint Hov Hturns.
    unfold scheduled_main.
    replace (now <? start_time) with true by (symmetry; apply Z.ltb_lt; exact Hnow).
    remember (interval_minutes cfg * 60 * 1000000) as interval eqn:Hinterval.
    assert (Hpos : 0 < interval) by lia.
    pose proof (Hturns 0%nat) as [Hd0 Hs0].
    pose proof (Hturns 1%nat) as [Hd1 Hs1].
    pose proof (Hturns 2%nat) as [Hd2 Hs2].
    pose proof (Hturns 3%nat) as [Hd3 Hs3].
    clear Hinterval Hint Hturns.
    repeat (rewrite scheduled_loop_step by exact Hpos;
            cbn [clock started sworld];
            split_cmp; [split_cmp|]; try lia);
      (eexists; split; [reflexivity|];
       cbn [clock started sworld finish length app]; split; lia).
Qed.

Lemma windowed_schedule_witness :
  exists st,
    @scheduled_main latin_tables plain_serializer 5 sample_config nine_o_clock
      (nine_o_clock + 3 * (interval_minutes sample_config * 60 * 1000000))
      0 (offline_turns 0) (nine_o_clock - 1000000) new_world = Stopped st
    /\ (length (started st) <= 4)%nat
    /\ (length (started st) = 4%nat <->
        0 + cycle_duration (offline_turns 0 0%nat) + sleep_overrun (offline_turns 0 0%nat)
        + cycle_duration (offline_turns 0 1%nat) + sleep_overrun (offline_turns 0 1%nat)
        + cycle_duration (offline_turns 0 2%nat) = 0).
Proof.
  apply (proj2 (@windowed_schedule latin_tables plain_serializer) 1%nat sample_config
           nine_o_clock 0 (offline_turns 0) (nine_o_clock - 1000000) new_world).
  - unfold nine_o_clock. lia.
  - simpl. lia.
  - lia.
  - intros k. simpl. lia.
Defined.

(** C9 fails as stated: with a start in the future, an end three intervals
    of 120 minutes after the start and cycles that last two seconds, three
    cycles run, triggered at the start, 2 s after the first interval and 4 s
    after the second; the fourth trigger would be 6 s after the end. *)
Lemma three_cycles_in_window :
  exists st,
    @scheduled_main latin_tables plain_serializer 5 sample_config nine_o_clock
      (nine_o_clock + 3 * two_hours) 0 (steady_turns 2000000)
      (nine_o_clock - 1000000) new_world = Stopped st
    /\ length (started st) = 3%nat
    /\ map fst (started st) =
       [nine_o_clock; nine_o_clock + two_hours + 2000000;
        nine_o_clock + 2 * two_hours + 4000000]
    /\ count_logged StartingProcess (sworld st) = 3%nat.
Proof.
  eexists. split; [vm_compute; reflexivity|].
  vm_compute. auto.
Qed.

(* ================================================================== *)
(** * Further properties *)

(** ** The normaliser *)

Lemma replace_ordinal (s : ustring) :
  replace [186%N] (lit ".") s = map ordinal_to_period s.
Proof.
  unfold replace. change (lit ".") with [46%N].
  induction s as [|c s IH]; [reflexivity|].
  cbn [replace_from starts_with map length Nat.sub]. unfold ordinal_to_period at 1.
  rewrite (N.eqb_sym 186 c).
  destruct (c =? 186)%N; cbn [andb app]; rewrite IH; reflexivity.
Qed.

Lemma replace_numero_then_ordinal (n : nat) (s : ustring) :
  (length s <= n)%nat ->
  map ordinal_to_period (replace [110%N; 186%N] (lit "n.") s) = map ordinal_to_period s.
Proof.
  unfold replace. revert s. induction n as [|n IH]; intros s Hlen.
  - destruct s; [reflexivity|simpl in Hlen; lia].
  - destruct s as [|c s]; [reflexivity|].
    cbn [replace_from starts_with].
    destruct (N.eqb_spec 110 c) as [<-|Hc]; cbn [andb].
    + destruct s as [|c' s].
      * reflexivity.
      * destruct (N.eqb_spec 186 c') as [<-|Hc']; cbn [andb].
        -- cbn [length Nat.sub replace_from]. change (lit "n.") with [110%N; 46%N].
           cbn [app map]. rewrite IH by (simpl in Hlen; lia). reflexivity.
        -- cbn [map]. f_equal. apply IH. simpl in Hlen. simpl. lia.
    + cbn [map]. f_equal. apply IH. simpl in Hlen. lia.
Qed.

(** X1. The two replacements of [normalize_text] amount to one: every
    ordinal indicator becomes a period, after an [n] or not; the text then
    goes through NFKD, loses its combining marks and its non-ASCII
    characters.  The indicator is therefore never folded to the letter [o]
    that NFKD gives for it. *)
Theorem normalize_text_steps {U : UnicodeData} (s : ustring) :
  normalize_text (PStr s) =
  Ok (List.filter is_ascii
        (List.filter (fun c => (combining c =? 0)%N)
           (nfkd (map ordinal_to_period s)))).
Proof.
  destruct s as [|c s]; [reflexivity|].
  unfold normalize_text. cbn [truthy negb]. unfold normalize_str.
  rewrite replace_ordinal.
  rewrite (replace_numero_then_ordinal (length (c :: s))) by lia.
  reflexivity.
Qed.

(** X2. Whatever the Unicode tables, a text returned by [normalize_text]
    holds ASCII characters only. *)
Theorem normalize_text_ascii_only {U : UnicodeData} (v : pyval) (o : ustring) :
  normalize_text v = Ok o -> forallb is_ascii o = true.
Proof.
  unfold normalize_text. destruct (truthy v).
  - cbn [negb]. destruct v; try discriminate.
    intros [= <-]. apply filter_ascii_all.
  - intros [= <-]. reflexivity.
Qed.

Lemma normalize_text_ascii_only_witness :
  @normalize_text latin_tables (PStr [69; 115; 112; 97; 241; 97; 32; 110; 186]%N)
    = Ok (lit "Espana n.")
  /\ forallb is_ascii (lit "Espana n.") = true.
Proof.
  split; [vm_compute; reflexivity|].
  apply (@normalize_text_ascii_only latin_tables
           (PStr [69; 115; 112; 97; 241; 97; 32; 110; 186]%N)).
  vm_compute. reflexivity.
Defined.

(** X3. [normalize_text] raises exactly on a truthy value that is not a
    [str] (a number other than zero, [True], a non-empty list or dict), and
    then an [AttributeError]; every falsy value, [None] and [0] included,
    gives the empty text. *)
Theorem normalize_text_errors {U : UnicodeData} (v : pyval) :
  (truthy v = false -> normalize_text v = Ok []) /\
  (forall e, normalize_text v = Raise e <->
             truthy v = true /\ is_str v = false /\ e = AttributeError).
Proof.
  split.
  - intros H. unfold normalize_text. rewrite H. reflexivity.
  - intros e. unfold normalize_text. destruct (truthy v) eqn:Ht; cbn [negb].
    + destruct v; cbn [is_str]; split;
        try (intros [= <-]; auto); try (intros (_ & _ & ->); reflexivity);
        try discriminate; intros (_ & H & _); discriminate.
    + split; [discriminate|]. intros (H & _). discriminate.
Qed.

Lemma normalize_text_errors_witness :
  @normalize_text latin_tables (PInt 0) = Ok []
  /\ @normalize_text latin_tables (PInt 5) = Raise AttributeError.
Proof.
  split.
  - apply (proj1 (@normalize_text_errors latin_tables (PInt 0))). reflexivity.
  - apply (proj2 (@normalize_text_errors latin_tables (PInt 5)) AttributeError).
    repeat split.
Defined.

(** X4. With tables that leave ASCII alone, as those of Unicode do, an
    ASCII text is returned as it is. *)
Theorem normalize_text_keeps_ascii (U : UnicodeData) (s : ustring) :
  ascii_stable U = true ->
  forallb is_ascii s = true ->
  normalize_text (PStr s) = Ok s.
Proof.
  intros HU Hs. destruct s as [|c s]; [reflexivity|].
  unfold normalize_text. cbn [truthy negb].
  rewrite (normalize_str_ascii HU (c :: s) Hs). reflexivity.
Qed.

Lemma normalize_text_keeps_ascii_witness :
  @normalize_text latin_tables (PStr (lit "Glorieta de Embajadores"))
    = Ok (lit "Glorieta de Embajadores").
Proof.
  apply (normalize_text_keeps_ascii latin_tables (lit "Glorieta de Embajadores"));
    vm_compute; reflexivity.
Defined.

(** ** The fields of a record *)

Lemma dict_get_absent (d : list (ustring * pyval)) (k : ustring) (default : pyval) :
  dict_mem k d = false -> dict_get d k default = default.
Proof.
  induction d as [|[k' v] d IH]; [reflexivity|]. cbn [dict_mem dict_get].
  destruct (ustring_eqb k' k); [discriminate|]. exact IH.
Qed.

Lemma dict_get_present (d : list (ustring * pyval)) (k : ustring) (default v : pyval) :
  dict_get d k default = v -> v <> default -> dict_mem k d = true.
Proof.
  intros Hv Hne. destruct (dict_mem k d) eqn:Hm; [reflexivity|].
  rewrite (dict_get_absent d k default Hm) in Hv. congruence.
Qed.

Lemma dict_get_is_dict (d : list (ustring * pyval)) (k : ustring) (default : pyval) :
  is_dict (dict_get d k PNone) = true -> dict_get d k default = dict_get d k PNone.
Proof.
  induction d as [|[k' v] d IH]; [discriminate|]. cbn [dict_get].
  destruct (ustring_eqb k' k); [reflexivity|]. exact IH.
Qed.

Lemma normalize_text_in_ascii {U : UnicodeData} (v : pyval) (o : ustring) :
  normalize_text v = Ok o -> forallb is_ascii o = true.
Proof.
  unfold normalize_text. destruct (truthy v); cbn [negb].
  - destruct v; try discriminate. intros [= <-]. apply filter_ascii_all.
  - intros [= <-]. reflexivity.
Qed.

Lemma flat_fallback_dict (d : list (ustring * pyval)) (k : ustring) (c : pyval) :
  flat_fallback (PDict d) k c =
  Ok (if eq_zero c && dict_mem k d then dict_get d k (PInt 0) else c).
Proof.
  unfold flat_fallback. destruct (eq_zero c); [|reflexivity].
  cbn [py_contains mbind result_bind andb]. destruct (dict_mem k d); reflexivity.
Qed.

Lemma light_fallback_dict (d : list (ustring * pyval)) (k : ustring) (p : pyval) :
  light_fallback (PDict d) k p =
  if eq_zero p && is_dict (dict_get d (lit "light") PNone)
  then py_get (dict_get d (lit "light") PNone) k (PInt 0)
  else Ok p.
Proof.
  unfold light_fallback. destruct (eq_zero p); [|reflexivity].
  cbn [py_contains py_get mbind result_bind andb].
  destruct (dict_mem (lit "light") d) eqn:Hm.
  - destruct (is_dict (dict_get d (lit "light") PNone)) eqn:Hd; [|reflexivity].
    rewrite (dict_get_is_dict d (lit "light") (PDict []) Hd). reflexivity.
  - rewrite (dict_get_absent d (lit "light") PNone Hm). reflexivity.
Qed.

(** What the extraction of a dict yields, field by field. *)
Lemma station_row_fields {U : UnicodeData} (ts : ustring) (d : list (ustring * pyval))
    (r : station_record) :
  station_row ts (PDict d) = Ok r ->
  exists coordinates lon lat,
    py_get (dict_get d (lit "geometry") (PDict [])) (lit "coordinates") (PList [PInt 0; PInt 0])
      = Ok coordinates
    /\ py_getitem coordinates 0 = Ok lon
    /\ py_getitem coordinates 1 = Ok lat
    /\ normalize_text (dict_get d (lit "name") (PStr [])) = Ok (name r)
    /\ normalize_text (dict_get d (lit "address") (PStr [])) = Ok (address r)
    /\ longitude r = (if eq_zero lon && dict_mem (lit "longitude") d
                      then dict_get d (lit "longitude") (PInt 0) else lon)
    /\ latitude r = (if eq_zero lat && dict_mem (lit "latitude") d
                     then dict_get d (lit "latitude") (PInt 0) else lat)
    /\ light_fallback (PDict d) (lit "availability") (dict_get d (lit "dock_bikes") (PInt 0))
       = Ok (available_bikes r)
    /\ light_fallback (PDict d) (lit "free") (dict_get d (lit "free_bases") (PInt 0))
       = Ok (free_bases r)
    /\ timestamp r = ts
    /\ station_id r = dict_get d (lit "id") PNone
    /\ reservations r = dict_get d (lit "reservations") (PInt 0)
    /\ status r = (if truthy (dict_get d (lit "activate") (PBool false)) then 1 else 0).
Proof.
  intros H. unfold station_row in H. bind_inv H.
  repeat match goal with
         | E : py_get (PDict d) _ _ = Ok _ |- _ => rewrite py_get_dict in E; injection E as <-
         end.
  repeat match goal with
         | E : flat_fallback (PDict d) _ _ = Ok _ |- _ =>
             rewrite flat_fallback_dict in E; injection E as <-
         end.
  injection H as <-. cbn.
  repeat match goal with
         | E1 : ?x = Ok ?a, E2 : ?x = Ok ?b |- _ =>
             assert (a = b) by congruence; subst b; clear E2
         end.
  eexists _, _, _. repeat split; eassumption.
Qed.

(** X5. Only an object is extracted, and its record carries the timestamp
    of the cycle, a status that is 0 or 1, and a name and an address in
    ASCII. *)
Theorem station_row_invariants {U : UnicodeData} (ts : ustring) (station : pyval)
    (r : station_record) :
  station_row ts station = Ok r ->
  is_dict station = true
  /\ timestamp r = ts
  /\ (status r = 0 \/ status r = 1)
  /\ forallb is_ascii (name r) = true
  /\ forallb is_ascii (address r) = true.
Proof.
  intros H. destruct station as [| | | | | |d]; try discriminate.
  destruct (station_row_fields ts d r H)
    as (c & lon & lat & _ & _ & _ & Hn & Ha & _ & _ & _ & _ & Hts & _ & _ & Hst).
  split; [reflexivity|]. split; [exact Hts|]. split.
  - rewrite Hst. destruct (truthy _); auto.
  - split; eapply normalize_text_in_ascii; eassumption.
Qed.

Lemma station_row_invariants_witness :
  exists r,
    @station_row latin_tables (lit "2025-04-10 09:00:00") (sample_station 1) = Ok r
    /\ timestamp r = lit "2025-04-10 09:00:00"
    /\ (status r = 0 \/ status r = 1)
    /\ name r = lit "Puerta del Sol n. 1"
    /\ forallb is_ascii (address r) = true.
Proof.
  eexists. split; [vm_compute; reflexivity|].
  pose proof (@station_row_invariants latin_tables (lit "2025-04-10 09:00:00")
                (sample_station 1) _ eq_refl) as (_ & Hts & Hst & _ & Ha).
  split; [exact Hts|]. split; [exact Hst|]. split; [reflexivity|exact Ha].
Defined.

(** X6. Coordinates of the geometry that are not zero are the coordinates
    of the record: the flat [longitude] and [latitude] fields of the
    station are then not read, each coordinate on its own. *)
Theorem geometry_coordinates_first {U : UnicodeData} (ts : ustring)
    (d g : list (ustring * pyval)) (lon lat : pyval) (rest : list pyval) (r : station_record) :
  station_row ts (PDict d) = Ok r ->
  dict_get d (lit "geometry") (PDict []) = PDict g ->
  dict_get g (lit "coordinates") (PList [PInt 0; PInt 0]) = PList (lon :: lat :: rest) ->
  (eq_zero lon = false -> longitude r = lon) /\
  (eq_zero lat = false -> latitude r = lat).
Proof.
  intros H Hg Hc.
  destruct (station_row_fields ts d r H)
    as (c & lon' & lat' & Hcoord & Hlon & Hlat & _ & _ & Hx & Hy & _).
  rewrite Hg, py_get_dict, Hc in Hcoord. injection Hcoord as <-.
  cbn in Hlon, Hlat. injection Hlon as <-. injection Hlat as <-.
  split; intros Hz; [rewrite Hx|rewrite Hy]; rewrite Hz; reflexivity.
Qed.

Lemma geometry_coordinates_first_witness :
  exists r,
    @station_row latin_tables (lit "2025-04-10 09:00:00") (sample_station 1) = Ok r
    /\ longitude r = PFloat (-3.75)%float
    /\ latitude r = PFloat 40.5%float.
Proof.
  eexists. split; [vm_compute; reflexivity|].
  pose proof (@geometry_coordinates_first latin_tables (lit "2025-04-10 09:00:00")
                _ _ _ _ _ _ (eq_refl : station_row _ (sample_station 1) = Ok _)
                eq_refl eq_refl) as [Hlon Hlat].
  split; [apply Hlon|apply Hlat]; reflexivity.
Defined.

(** X7. A station without a ['geometry'] key takes its coordinates from
    its flat [longitude] and [latitude] fields, and gets the integer 0 for
    each field that is missing as well. *)
Theorem flat_coordinates_fallback {U : UnicodeData} (ts : ustring)
    (d : list (ustring * pyval)) (r : station_record) :
  station_row ts (PDict d) = Ok r ->
  dict_mem (lit "geometry") d = false ->
  longitude r = dict_get d (lit "longitude") (PInt 0) /\
  latitude r = dict_get d (lit "latitude") (PInt 0).
Proof.
  intros H Hg.
  destruct (station_row_fields ts d r H)
    as (c & lon & lat & Hcoord & Hlon & Hlat & _ & _ & Hx & Hy & _).
  rewrite (dict_get_absent d _ _ Hg) in Hcoord. cbn in Hcoord. injection Hcoord as <-.
  cbn in Hlon, Hlat. injection Hlon as <-. injection Hlat as <-.
  rewrite Hx, Hy. cbn [eq_zero Z.eqb andb].
  split.
  - destruct (dict_mem (lit "longitude") d) eqn:Hm; [reflexivity|].
    symmetry. apply dict_get_absent, Hm.
  - destruct (dict_mem (lit "latitude") d) eqn:Hm; [reflexivity|].
    symmetry. apply dict_get_absent, Hm.
Qed.

Lemma flat_coordinates_fallback_witness :
  exists r,
    @station_row latin_tables (lit "2025-04-10 09:00:00") light_station = Ok r
    /\ longitude r = PFloat (-3.5)%float
    /\ latitude r = PFloat 40.25%float.
Proof.
  eexists. split; [vm_compute; reflexivity|].
  exact (@flat_coordinates_fallback latin_tables (lit "2025-04-10 09:00:00") _ _
           (eq_refl : station_row _ light_station = Ok _) eq_refl).
Defined.

(** X8. The ['light'] mapping is read for a field only when the primary
    field ([dock_bikes], [free_bases]) is zero or missing and ['light'] is a
    mapping; in every other case the record has the primary field as sent,
    a zero of any type included. *)
Theorem primary_availability_first {U : UnicodeData} (ts : ustring)
    (d : list (ustring * pyval)) (r : station_record) :
  station_row ts (PDict d) = Ok r ->
  (eq_zero (dict_get d (lit "dock_bikes") (PInt 0)) = false
   \/ is_dict (dict_get d (lit "light") PNone) = false ->
   available_bikes r = dict_get d (lit "dock_bikes") (PInt 0)) /\
  (eq_zero (dict_get d (lit "free_bases") (PInt 0)) = false
   \/ is_dict (dict_get d (lit "light") PNone) = false ->
   free_bases r = dict_get d (lit "free_bases") (PInt 0)).
Proof.
  intros H.
  destruct (station_row_fields ts d r H)
    as (c & lon & lat & _ & _ & _ & _ & _ & _ & _ & Hav & Hfr & _).
  rewrite light_fallback_dict in Hav, Hfr.
  split; intros [Hz|Hl].
  - rewrite Hz in Hav. cbn [andb] in Hav. congruence.
  - rewrite Hl, andb_false_r in Hav. congruence.
  - rewrite Hz in Hfr. cbn [andb] in Hfr. congruence.
  - rewrite Hl, andb_false_r in Hfr. congruence.
Qed.

Lemma primary_availability_first_witness :
  exists r,
    @station_row latin_tables (lit "2025-04-10 09:00:00") (sample_station 1) = Ok r
    /\ available_bikes r = PInt 8
    /\ free_bases r = PInt 5.
Proof.
  eexists. split; [vm_compute; reflexivity|].
  pose proof (@primary_availability_first latin_tables (lit "2025-04-10 09:00:00") _ _
                (eq_refl : station_row _ (sample_station 1) = Ok _)) as [Hav Hfr].
  split; [apply Hav|apply Hfr]; left; reflexivity.
Defined.

(** X9. When the primary field is zero or missing and ['light'] is a
    mapping, the record has the [availability] (for the bikes) and the
    [free] (for the free bases) of that mapping, and the integer 0 when the
    mapping lacks the key. *)
Theorem light_availability_fallback {U : UnicodeData} (ts : ustring)
    (d l : list (ustring * pyval)) (r : station_record) :
  station_row ts (PDict d) = Ok r ->
  dict_get d (lit "light") PNone = PDict l ->
  (eq_zero (dict_get d (lit "dock_bikes") (PInt 0)) = true ->
   available_bikes r = dict_get l (lit "availability") (PInt 0)) /\
  (eq_zero (dict_get d (lit "free_bases") (PInt 0)) = true ->
   free_bases r = dict_get l (lit "free") (PInt 0)).
Proof.
  intros H Hl.
  destruct (station_row_fields ts d r H)
    as (c & lon & lat & _ & _ & _ & _ & _ & _ & _ & Hav & Hfr & _).
  rewrite light_fallback_dict, Hl in Hav, Hfr. cbn [is_dict py_get] in Hav, Hfr.
  split; intros Hz.
  - rewrite Hz in Hav. cbn [andb] in Hav. congruence.
  - rewrite Hz in Hfr. cbn [andb] in Hfr. congruence.
Qed.

Lemma light_availability_fallback_witness :
  exists r,
    @station_row latin_tables (lit "2025-04-10 09:00:00") light_station = Ok r
    /\ available_bikes r = PInt 4
    /\ free_bases r = PInt 7
    /\ total_bases r = PInt 11.
Proof.
  eexists. split; [vm_compute; reflexivity|].
  pose proof (@light_availability_fallback latin_tables (lit "2025-04-10 09:00:00") _ _ _
                (eq_refl : station_row _ light_station = Ok _) eq_refl) as [Hav Hfr].
  split; [apply Hav; reflexivity|]. split; [apply Hfr; reflexivity|reflexivity].
Defined.

(** ** The batch *)

Lemma add_log_nil (w : world) : add_log [] w = w.
Proof. destruct w. unfold add_log. cbn. rewrite app_nil_r. reflexivity. Qed.

Lemma add_log_app (a b : list (level * message)) (w : world) :
  add_log b (add_log a w) = add_log (a ++ b) w.
Proof. unfold add_log. cbn. rewrite app_assoc. reflexivity. Qed.

Lemma logging_add_log (l : level) (m : message) (w : world) :
  logging l m w = (Ok tt, add_log [(l, m)] w).
Proof. reflexivity. Qed.

(** The loop on entries that all extract: the rows, and the warnings in
    the log. *)
Lemma extract_rows_run {U : UnicodeData} (ts : ustring) (l : list pyval)
    (rows : list station_record) (w : world) :
  Forall2 (fun s r => station_row ts s = Ok r) l rows ->
  extract_rows ts l w = (Ok rows, add_log (coordinate_warnings rows) w).
Proof.
  intros H. revert w. induction H as [|s r l rows Hs _ IH]; intros w.
  - cbn. rewrite add_log_nil. reflexivity.
  - cbn [extract_rows]. unfold mbind, M_bind, lift. rewrite Hs.
    unfold coordinate_warnings. cbn [List.filter].
    destruct (unresolved_coordinates r); cbn [logging mret M_ret map].
    + rewrite IH. fold (add_log [(WARNING, CoordinatesNotFound (station_id r) (name r))] w).
      rewrite add_log_app. reflexivity.
    + rewrite IH. reflexivity.
Qed.

(** The rows that the loop returns are the records of the entries. *)
Lemma extract_rows_sound {U : UnicodeData} (ts : ustring) (l : list pyval)
    (rows : list station_record) (w : world) :
  fst (extract_rows ts l w) = Ok rows ->
  Forall2 (fun s r => station_row ts s = Ok r) l rows.
Proof.
  revert rows w. induction l as [|s l IH]; intros rows w.
  - cbn. intros [= <-]. constructor.
  - cbn [extract_rows]. unfold mbind, M_bind, lift.
    destruct (station_row ts s) as [r|e] eqn:Hs; [|discriminate].
    destruct (unresolved_coordinates r); cbn [logging mret M_ret].
    + match goal with |- context [extract_rows ts l ?w1] =>
        specialize (IH) ; destruct (extract_rows ts l w1) as [[rows'|e] w2] eqn:Hx
      end; cbn; [|discriminate].
      intros [= <-]. constructor; [exact Hs|].
      eapply IH. rewrite Hx. reflexivity.
    + destruct (extract_rows ts l w) as [[rows'|e] w2] eqn:Hx; cbn; [|discriminate].
      intros [= <-]. constructor; [exact Hs|].
      eapply IH. rewrite Hx. reflexivity.
Qed.

(** X10. A station whose longitude or latitude is zero is kept: the loop
    returns the records of all the entries, and the log gains exactly one
    warning for each record with a zero coordinate, in order; counters and
    files are as before. *)
Theorem zero_coordinates_warned {U : UnicodeData} (ts : ustring) (l : list pyval)
    (rows : list station_record) (w : world) :
  Forall2 (fun s r => station_row ts s = Ok r) l rows ->
  extract_rows ts l w =
  (Ok rows,
   {| stats := stats w;
      files := files w;
      log := log w ++ map (fun r => (WARNING, CoordinatesNotFound (station_id r) (name r)))
                          (List.filter unresolved_coordinates rows) |}).
Proof. intros H. rewrite (extract_rows_run ts l rows w H). reflexivity. Qed.

Lemma zero_coordinates_warned_witness :
  exists rows,
    Forall2 (fun s r => @station_row latin_tables (lit "2025-04-10 09:00:00") s = Ok r)
            [sample_station 1; origin_station] rows
    /\ @extract_rows latin_tables (lit "2025-04-10 09:00:00")
         [sample_station 1; origin_station] new_world =
       (Ok rows,
        {| stats := stats new_world;
           files := files new_world;
           log := log new_world
                  ++ map (fun r => (WARNING, CoordinatesNotFound (station_id r) (name r)))
                         (List.filter unresolved_coordinates rows) |})
    /\ map (fun r => (WARNING, CoordinatesNotFound (station_id r) (name r)))
           (List.filter unresolved_coordinates rows)
       = [(WARNING, CoordinatesNotFound (PInt 9) (lit "Sin lugar"))].
Proof.
  eexists. split; [|split].
  - constructor; [vm_compute; reflexivity|].
    constructor; [vm_compute; reflexivity|constructor].
  - apply (@zero_coordinates_warned latin_tables (lit "2025-04-10 09:00:00")
             [sample_station 1; origin_station] _ new_world).
    constructor; [vm_compute; reflexivity|].
    constructor; [vm_compute; reflexivity|constructor].
  - vm_compute. reflexivity.
Defined.

Lemma extract_rows_logs {U : UnicodeData} (ts : ustring) (l : list pyval) (w : world) :
  exists r entries, extract_rows ts l w = (r, add_log entries w).
Proof.
  revert w. induction l as [|s l IH]; intros w.
  - exists (Ok []), []. rewrite add_log_nil. reflexivity.
  - cbn [extract_rows]. unfold mbind, M_bind, lift.
    destruct (station_row ts s) as [row|e].
    + destruct (unresolved_coordinates row); cbn [logging mret M_ret].
      * match goal with |- context [extract_rows ts l ?w1] =>
          change w1 with (add_log [(WARNING, CoordinatesNotFound (station_id row) (name row))] w);
          destruct (IH (add_log [(WARNING, CoordinatesNotFound (station_id row) (name row))] w))
            as (r & entries & ->)
        end.
        rewrite add_log_app. destruct r; eauto.
      * destruct (IH w) as (r & entries & ->). destruct r; eauto.
    + exists (Raise e), []. rewrite add_log_nil. reflexivity.
Qed.

Lemma process_stations_data_logs {U : UnicodeData} (env : cycle_env) (data : pyval)
    (w : world) :
  exists r entries, process_stations_data env data w = (r, add_log entries w).
Proof.
  unfold process_stations_data.
  destruct (truthy data); cbn [negb]; [|eexists _, [_]; reflexivity].
  unfold mbind at 1. unfold M_bind at 1. unfold lift at 1.
  destruct (py_contains (lit "data") data) as [[|]|e]; cbn [negb];
    [|eexists _, [_]; reflexivity|exists (Raise e), []; rewrite add_log_nil; reflexivity].
  unfold mbind at 1. unfold M_bind at 1. unfold lift at 1.
  destruct (py_subscript data (lit "data")) as [entries|e];
    [|exists (Raise e), []; rewrite add_log_nil; reflexivity].
  unfold mbind at 1. unfold M_bind at 1. unfold lift at 1.
  destruct (py_iter entries) as [stations|e];
    [|exists (Raise e), []; rewrite add_log_nil; reflexivity].
  unfold mbind at 1. unfold M_bind at 1.
  destruct (extract_rows_logs (extract_stamp env) stations w) as (r & logged & ->).
  destruct r as [[|row rows]|e].
  - unfold mbind, M_bind. rewrite !logging_add_log, add_log_app. cbn [mret M_ret]. eauto.
  - unfold mbind, M_bind. rewrite !logging_add_log, !add_log_app. cbn [mret M_ret]. eauto.
  - eauto.
Qed.

(** X11. Whatever the payload, [process_stations_data] changes neither
    the counters nor the files: it only logs. *)
Theorem process_stations_data_only_logs {U : UnicodeData} (env : cycle_env) (data : pyval)
    (w : world) :
  stats (snd (process_stations_data env data w)) = stats w /\
  files (snd (process_stations_data env data w)) = files w /\
  exists entries, log (snd (process_stations_data env data w)) = log w ++ entries.
Proof.
  destruct (process_stations_data_logs env data w) as (r & entries & ->).
  cbn. eauto.
Qed.

(** X12. A falsy payload, or an object without a ['data'] key, is not an
    exception: [process_stations_data] returns [None] after one error
    entry in the log. *)
Theorem process_stations_data_invalid {U : UnicodeData} (env : cycle_env) (data : pyval)
    (w : world) :
  truthy data = false
  \/ (exists d, data = PDict d /\ dict_mem (lit "data") d = false) ->
  process_stations_data env data w =
  (Ok None, {| stats := stats w; files := files w; log := log w ++ [(ERROR, InvalidFormat)] |}).
Proof.
  intros [Hf|(d & -> & Hm)]; unfold process_stations_data.
  - rewrite Hf. reflexivity.
  - destruct d as [|kv d]; [reflexivity|]. cbn [truthy negb].
    unfold mbind at 1. unfold M_bind at 1. unfold lift at 1. cbn [py_contains].
    rewrite Hm. reflexivity.
Qed.

Lemma process_stations_data_invalid_witness :
  @process_stations_data latin_tables (morning HttpRequestException)
    (PDict [(lit "code", PStr (lit "80")); (lit "description", PStr (lit "token expired"))])
    new_world =
  (Ok None, {| stats := zero_stats; files := ∅; log := [(ERROR, InvalidFormat)] |}).
Proof.
  apply (@process_stations_data_invalid latin_tables (morning HttpRequestException)
           (PDict [(lit "code", PStr (lit "80"));
                   (lit "description", PStr (lit "token expired"))]) new_world).
  right. eexists. split; reflexivity.
Defined.

(** X13. A frame returned by [process_stations_data] is never empty, and
    its rows are the records of the entries under ['data'], one for each
    entry and in their order. *)
Theorem process_stations_data_sound {U : UnicodeData} (env : cycle_env) (data : pyval)
    (rows : list station_record) (w : world) :
  fst (process_stations_data env data w) = Ok (Some rows) ->
  rows <> [] /\
  exists entries stations,
    py_subscript data (lit "data") = Ok entries
    /\ py_iter entries = Ok stations
    /\ Forall2 (fun s r => station_row (extract_stamp env) s = Ok r) stations rows.
Proof.
  unfold process_stations_data.
  destruct (truthy data); cbn [negb]; [|discriminate].
  unfold mbind at 1. unfold M_bind at 1. unfold lift at 1.
  destruct (py_contains (lit "data") data) as [[|]|e]; cbn [negb]; try discriminate.
  unfold mbind at 1. unfold M_bind at 1. unfold lift at 1.
  destruct (py_subscript data (lit "data")) as [entries|e]; [|discriminate].
  unfold mbind at 1. unfold M_bind at 1. unfold lift at 1.
  destruct (py_iter entries) as [stations|e] eqn:Hiter; [|discriminate].
  unfold mbind at 1. unfold M_bind at 1.
  destruct (extract_rows (extract_stamp env) stations w) as [[[|r rows']|e] w1] eqn:Hx;
    try discriminate.
  cbn. intros [= <-]. split; [discriminate|].
  exists entries, stations. repeat split; try assumption.
  eapply extract_rows_sound. rewrite Hx. reflexivity.
Qed.

Lemma process_stations_data_sound_witness :
  exists rows,
    fst (@process_stations_data latin_tables (morning HttpRequestException)
           (payload_of [sample_station 1; light_station]) new_world) = Ok (Some rows)
    /\ rows <> []
    /\ length rows = 2%nat.
Proof.
  eexists. split; [vm_compute; reflexivity|].
  split.
  - apply (@process_stations_data_sound latin_tables (morning HttpRequestException)
             (payload_of [sample_station 1; light_station]) _ new_world).
    vm_compute. reflexivity.
  - reflexivity.
Defined.

(** ** The steps of a cycle *)

Section StepFacts.
Context {U : UnicodeData} {ser : Serializer}.

Lemma save_json_data_run (env : cycle_env) (data : pyval) (w : world) :
  truthy data = true ->
  save_json_data env data w =
  match snapshot_io env with
  | Some e => (Raise e, w)
  | None =>
      (Ok (Some (snapshot_path env)),
       {| stats := incr_total_files (stats w);
          files := <[snapshot_path env := json_dump data]> (files w);
          log := log w ++ [(INFO, JsonSaved (snapshot_path env))] |})
  end.
Proof.
  intros Ht. destruct data; try discriminate;
    unfold save_json_data, write_file, mbind, M_bind;
    destruct (snapshot_io env); reflexivity.
Qed.

Lemma update_csv_empty (env : cycle_env) (df : option (list station_record)) (w : world) :
  df = None \/ df = Some [] ->
  update_csv env df w = (Ok tt, add_log [(WARNING, NoDataForCsv)] w).
Proof. intros [->| ->]; reflexivity. Qed.

Lemma update_csv_run (env : cycle_env) (r : station_record) (rows : list station_record)
    (w : world) :
  update_csv env (Some (r :: rows)) w =
  match history_io env with
  | Some e => (Raise e, w)
  | None =>
      let w1 := {| stats := stats w;
                   files := <[main_csv_path := appended (r :: rows) w]> (files w);
                   log := log w ++ [(INFO, if bool_decide (is_Some (files w !! main_csv_path))
                                           then CsvUpdated main_csv_path
                                           else CsvCreated main_csv_path)] |} in
      match daily_io env with
      | Some e => (Raise e, w1)
      | None =>
          (Ok tt,
           {| stats := stats w;
              files := <[daily_csv_path env := to_csv true (r :: rows)]> (files w1);
              log := log w1 ++ [(INFO, CollectionSaved (daily_csv_path env))] |})
      end
  end.
Proof.
  unfold update_csv, exists_file, append_file, write_file, appended.
  unfold mbind, M_bind.
  destruct (files w !! main_csv_path) as [old|] eqn:Hold.
  - rewrite bool_decide_eq_true_2 by eauto.
    destruct (history_io env); [reflexivity|]. cbn [logging fst snd stats files log].
    rewrite Hold. destruct (daily_io env); reflexivity.
  - rewrite bool_decide_eq_false_2 by (intros [? ?]; discriminate).
    destruct (history_io env); [reflexivity|]. cbn [logging fst snd stats files log].
    destruct (daily_io env); reflexivity.
Qed.

Lemma update_csv_stats (env : cycle_env) (df : option (list station_record)) (w : world) :
  stats (snd (update_csv env df w)) = stats w.
Proof.
  destruct df as [[|r rows]|]; try reflexivity.
  rewrite update_csv_run. destruct (history_io env); [reflexivity|].
  destruct (daily_io env); reflexivity.
Qed.

End StepFacts.

(** ** The outcome of a cycle *)

Section OutcomeFacts.
Context {U : UnicodeData} {ser : Serializer}.

(** The cycle on a truthy payload, step by step. *)
Lemma collect_data_steps (env : cycle_env) (data : pyval) (w : world) :
  http env = HttpJson data ->
  truthy data = true ->
  collect_data env w =
  match save_json_data env data (add_log [(INFO, StartingCollection)] w) with
  | (Raise e, w1) => (Ok tt, failed e w1)
  | (Ok _, w1) =>
      match process_stations_data env data w1 with
      | (Raise e, w2) => (Ok tt, failed e w2)
      | (Ok (Some (r :: rows)), w2) =>
          match update_csv env (Some (r :: rows)) w2 with
          | (Raise e, w3) => (Ok tt, failed e w3)
          | (Ok _, w3) =>
              (Ok tt, add_log [(INFO, CollectionSucceeded)] (bump incr_collections_made w3))
          end
      | (Ok _, w2) => (Ok tt, bump incr_errors (add_log [(ERROR, ProcessingFailed)] w2))
      end
  end.
Proof.
  intros Hh Ht. unfold collect_data, try_except, collect_data_try, get_station_info.
  rewrite Hh. unfold mbind at 1. unfold M_bind at 1. rewrite logging_add_log.
  unfold mbind at 1. unfold M_bind at 1. cbn [mret M_ret]. rewrite Ht.
  unfold mbind at 1. unfold M_bind at 1.
  destruct (save_json_data env data (add_log [(INFO, StartingCollection)] w)) as [[p|e] w1];
    [|reflexivity].
  unfold mbind at 1. unfold M_bind at 1.
  destruct (process_stations_data env data w1) as [[[[|r rows]|]|e] w2]; try reflexivity.
  unfold mbind at 1. unfold M_bind at 1.
  destruct (update_csv env (Some (r :: rows)) w2) as [[[]|e] w3]; reflexivity.
Qed.

(** The cycle on a falsy payload. *)
Lemma collect_data_falsy (env : cycle_env) (data : pyval) (w : world) :
  http env = HttpJson data ->
  truthy data = false ->
  collect_data env w =
  (Ok tt, bump incr_errors (add_log [(INFO, StartingCollection); (ERROR, NoDataObtained)] w)).
Proof.
  intros Hh Ht. unfold collect_data, try_except, collect_data_try, get_station_info.
  rewrite Hh. unfold mbind, M_bind, mret, M_ret. cbn [logging]. rewrite Ht.
  unfold bump, add_log. cbn. rewrite <- app_assoc. reflexivity.
Qed.

(** The cycle after a failed fetch. *)
Lemma collect_data_offline (env : cycle_env) (w : world) :
  http env = HttpRequestException ->
  collect_data env w =
  (Ok tt,
   bump incr_errors
     (bump incr_errors
        (add_log [(INFO, StartingCollection); (ERROR, FetchError); (ERROR, NoDataObtained)] w))).
Proof.
  intros Hh. unfold collect_data, try_except, collect_data_try, get_station_info.
  rewrite Hh. unfold mbind, M_bind, mret, M_ret. cbn.
  unfold bump, add_log. cbn. rewrite <- !app_assoc. reflexivity.
Qed.

End OutcomeFacts.

(** X14. No cycle raises: [collect_data] always returns, and so do the
    jobs of the interval mode and its [main], whatever the API answers and
    whichever writes fail. *)
Theorem cycles_never_raise {U : UnicodeData} {ser : Serializer} :
  (forall env w, fst (collect_data env w) = Ok tt) /\
  (forall later w, fst (run_pending later w) = Ok tt) /\
  (forall cfg first later w, fst (interval_main cfg first later w) = Ok tt).
Proof.
  assert (Hcycle : forall env w, fst (collect_data env w) = Ok tt).
  { intros env w. unfold collect_data, try_except.
    destruct (collect_data_try env w) as [[[]|e] w1]; reflexivity. }
  assert (Hjobs : forall later w, fst (run_pending later w) = Ok tt).
  { induction later as [|env later IH]; intros w; [reflexivity|].
    cbn [run_pending]. unfold mbind, M_bind.
    specialize (Hcycle env w). destruct (collect_data env w) as [[[]|e] w1];
      [apply IH|discriminate]. }
  split; [exact Hcycle|]. split; [exact Hjobs|].
  intros cfg first later w. unfold interval_main, try_except.
  match goal with |- fst (match ?m w with _ => _ end) = _ => destruct (m w) as [[[]|e] w1] end;
    reflexivity.
Qed.

(** A cycle either succeeds or is counted as an error: either
    [collections_made] and [total_files] grow by one and [errors] keeps its
    value, or [collections_made] keeps its value and [errors] grows by one
    or by two, with at most one file counted. *)
Lemma collect_data_counts {U : UnicodeData} {ser : Serializer} (env : cycle_env) (w : world) :
  let before := stats w in
  let after := stats (snd (collect_data env w)) in
  (collections_made after = collections_made before + 1
   /\ total_files after = total_files before + 1
   /\ errors after = errors before)
  \/
  (collections_made after = collections_made before
   /\ total_files before <= total_files after <= total_files before + 1
   /\ errors before + 1 <= errors after <= errors before + 2).
Proof.
  cbv zeta. destruct (http env) as [data|] eqn:Hh.
  - destruct (truthy data) eqn:Ht.
    + rewrite (collect_data_steps env data w Hh Ht).
      rewrite (save_json_data_run env data _ Ht).
      destruct (snapshot_io env) as [e|]; [right; cbn; lia|].
      match goal with |- context [process_stations_data env data ?w1] =>
        destruct (process_stations_data_logs env data w1) as (r & entries & ->)
      end.
      destruct r as [[[|row rows]|]|e]; try (right; cbn; lia).
      match goal with |- context [update_csv env ?df ?w2] =>
        pose proof (update_csv_stats env df w2) as Hst;
        destruct (update_csv env df w2) as [[[]|e] w3]
      end; cbn in Hst |- *; rewrite Hst; cbn; [left|right]; lia.
    + rewrite (collect_data_falsy env data w Hh Ht). right. cbn. lia.
  - rewrite (collect_data_offline env w Hh). right. cbn. lia.
Qed.

(** ** The history across cycles *)

Lemma string_app_assoc (a b c : string) : ((a +:+ b) +:+ c = a +:+ (b +:+ c))%string.
Proof.
  induction a as [|x a IH]; [reflexivity|].
  change (String x ((a +:+ b) +:+ c) = String x (a +:+ (b +:+ c)))%string.
  f_equal. exact IH.
Qed.

Lemma string_app_empty (a : string) : (a +:+ EmptyString = a)%string.
Proof.
  induction a as [|x a IH]; [reflexivity|].
  change (String x (a +:+ EmptyString) = String x a)%string.
  f_equal. exact IH.
Qed.

Lemma history_kept_refl (w : world) : history_kept w w.
Proof. intros old H. exists EmptyString. rewrite string_app_empty. exact H. Qed.

Lemma history_kept_trans (w1 w2 w3 : world) :
  history_kept w1 w2 -> history_kept w2 w3 -> history_kept w1 w3.
Proof.
  intros H12 H23 old H. destruct (H12 old H) as [s1 H2].
  destruct (H23 _ H2) as [s2 H3]. exists (s1 +:+ s2)%string.
  rewrite H3, string_app_assoc. reflexivity.
Qed.

Lemma history_kept_files (w w' : world) : files w' = files w -> history_kept w w'.
Proof. intros Hf old H. exists EmptyString. rewrite Hf, string_app_empty. exact H. Qed.

Lemma keeps_history_ret {A} (a : A) : keeps_history (mret a).
Proof. intros w. apply history_kept_refl. Qed.

Lemma keeps_history_bind {A B} (m : M A) (f : A -> M B) :
  keeps_history m -> (forall a, keeps_history (f a)) -> keeps_history (m ≫= f).
Proof.
  intros Hm Hf w. unfold mbind, M_bind. specialize (Hm w).
  destruct (m w) as [[a|e] w1]; cbn [snd] in *; [|exact Hm].
  eapply history_kept_trans; [exact Hm|apply Hf].
Qed.

Lemma keeps_history_try_except {A} (m : M A) (handler : exn -> M A) :
  keeps_history m -> (forall e, keeps_history (handler e)) ->
  keeps_history (try_except m handler).
Proof.
  intros Hm Hh w. unfold try_except. specialize (Hm w).
  destruct (m w) as [[a|e] w1]; cbn [snd] in *; [exact Hm|].
  eapply history_kept_trans; [exact Hm|apply Hh].
Qed.

Lemma keeps_history_logging (l : level) (m : message) : keeps_history (logging l m).
Proof. intros w. apply history_kept_files. reflexivity. Qed.

Lemma keeps_history_update_stats (f : collection_stats -> collection_stats) :
  keeps_history (update_stats f).
Proof. intros w. apply history_kept_files. reflexivity. Qed.

Section HistoryKept.
Context {U : UnicodeData} {ser : Serializer}.

Lemma snapshot_path_ne (env : cycle_env) : snapshot_path env <> main_csv_path.
Proof. intros H. apply (f_equal length) in H. discriminate. Qed.

Lemma daily_csv_path_ne (env : cycle_env) : daily_csv_path env <> main_csv_path.
Proof. intros H. apply (f_equal length) in H. discriminate. Qed.

Lemma daily_snapshot_ne (env : cycle_env) : daily_csv_path env <> snapshot_path env.
Proof. intros H. apply (f_equal length) in H. discriminate. Qed.

Lemma keeps_history_get_station_info (env : cycle_env) : keeps_history (get_station_info env).
Proof.
  intros w. apply history_kept_files. unfold get_station_info.
  destruct (http env); reflexivity.
Qed.

Lemma keeps_history_save_json_data (env : cycle_env) (data : pyval) :
  keeps_history (save_json_data env data).
Proof.
  intros w old H. exists EmptyString. rewrite string_app_empty.
  destruct (truthy data) eqn:Ht.
  - rewrite (save_json_data_run env data w Ht).
    destruct (snapshot_io env); cbn [snd files]; [exact H|].
    rewrite lookup_insert_ne by apply snapshot_path_ne. exact H.
  - destruct data; try discriminate; try exact H;
      unfold save_json_data, write_file, mbind, M_bind;
      destruct (snapshot_io env); cbn [snd files logging update_stats mret M_ret]; try exact H;
      rewrite lookup_insert_ne by apply snapshot_path_ne; exact H.
Qed.

Lemma keeps_history_process (env : cycle_env) (data : pyval) :
  keeps_history (process_stations_data env data).
Proof.
  intros w. apply history_kept_files.
  destruct (process_stations_data_logs env data w) as (r & entries & ->). reflexivity.
Qed.

Lemma keeps_history_update_csv (env : cycle_env) (df : option (list station_record)) :
  keeps_history (update_csv env df).
Proof.
  intros w. destruct df as [[|r rows]|]; try (apply history_kept_files; reflexivity).
  intros old H. rewrite update_csv_run.
  destruct (history_io env); [exists EmptyString; rewrite string_app_empty; exact H|].
  exists (csv_body (r :: rows)).
  destruct (daily_io env); cbn [snd files].
  - rewrite lookup_insert_eq. unfold appended. rewrite H. reflexivity.
  - rewrite lookup_insert_ne by apply daily_csv_path_ne.
    rewrite lookup_insert_eq. unfold appended. rewrite H. reflexivity.
Qed.

Lemma keeps_history_collect_data (env : cycle_env) : keeps_history (collect_data env).
Proof.
  unfold collect_data, collect_data_try.
  repeat first
    [ apply keeps_history_logging
    | apply keeps_history_update_stats
    | apply keeps_history_get_station_info
    | apply keeps_history_save_json_data
    | apply keeps_history_process
    | apply keeps_history_update_csv
    | apply keeps_history_try_except; [|intros ?]
    | apply keeps_history_bind; [|intros ?]
    | match goal with
      | |- keeps_history (if ?b then _ else _) => destruct b
      | |- keeps_history (match ?x with _ => _ end) => destruct x
      end ].
Qed.

End HistoryKept.

(** X16. No cycle and no run of cycles rewrites the history: whatever the
    API answers and whichever writes fail, a history file that exists
    before still exists after, and holds its former bytes followed by what
    the cycles have appended. *)
Theorem history_only_grows {U : UnicodeData} {ser : Serializer} :
  (forall env w old,
     files w !! main_csv_path = Some old ->
     exists suffix,
       files (snd (collect_data env w)) !! main_csv_path = Some (old +:+ suffix)%string) /\
  (forall later w old,
     files w !! main_csv_path = Some old ->
     exists suffix,
       files (snd (run_pending later w)) !! main_csv_path = Some (old +:+ suffix)%string).
Proof.
  split.
  - intros env w. apply keeps_history_collect_data.
  - induction later as [|env later IH]; intros w old H.
    + exists EmptyString. rewrite string_app_empty. exact H.
    + cbn [run_pending]. unfold mbind, M_bind.
      destruct (keeps_history_collect_data env w old H) as [s1 H1].
      destruct (collect_data env w) as [[[]|e] w1]; cbn [snd] in *; [|eauto].
      destruct (IH w1 _ H1) as [s2 H2]. exists (s1 +:+ s2)%string.
      rewrite H2, string_app_assoc. reflexivity.
Qed.

Lemma history_only_grows_witness :
  exists suffix,
    files (snd (@collect_data latin_tables plain_serializer
                  (morning (HttpJson (payload_of ten_stations))) seasoned_world))
      !! main_csv_path
    = Some (@to_csv plain_serializer true [earlier_row] +:+ suffix)%string.
Proof.
  apply (proj1 (@history_only_grows latin_tables plain_serializer)
           (morning (HttpJson (payload_of ten_stations))) seasoned_world).
  reflexivity.
Defined.

(** ** A cycle that extracts *)

Section SuccessFacts.
Context {U : UnicodeData} {ser : Serializer}.

(** The extraction of a list of entries that all extract. *)
Lemma process_stations_data_run (env : cycle_env) (data : pyval) (entries : list pyval)
    (r : station_record) (rows : list station_record) (w : world) :
  py_subscript data (lit "data") = Ok (PList entries) ->
  Forall2 (fun s x => station_row (extract_stamp env) s = Ok x) entries (r :: rows) ->
  process_stations_data env data w =
  (Ok (Some (r :: rows)),
   add_log (coordinate_warnings (r :: rows)
            ++ [(INFO, Processed (length (r :: rows))); (INFO, FirstRow r)]) w).
Proof.
  intros Hdata Hrows. destruct data as [| | | | | |d]; try discriminate.
  cbn [py_subscript] in Hdata.
  destruct (dict_mem (lit "data") d) eqn:Hmem; [|discriminate].
  unfold process_stations_data.
  rewrite (dict_mem_nonempty _ _ Hmem). cbn [negb].
  unfold mbind at 1. unfold M_bind at 1. unfold lift at 1. cbn [py_contains].
  rewrite Hmem. cbn [negb].
  unfold mbind at 1. unfold M_bind at 1. unfold lift at 1. cbn [py_subscript].
  rewrite Hmem. injection Hdata as ->.
  unfold mbind at 1. unfold M_bind at 1. unfold lift at 1. cbn [py_iter].
  unfold mbind at 1. unfold M_bind at 1.
  rewrite (extract_rows_run _ _ _ w Hrows).
  unfold mbind, M_bind. rewrite !logging_add_log, !add_log_app. cbn [mret M_ret].
  rewrite <- ?app_assoc. reflexivity.
Qed.

End SuccessFacts.

(** X17. A cycle that fetches a payload whose entries all extract, and
    whose three writes succeed, counts one collection and one file, no
    error, and leaves three files: the snapshot with the payload as
    [json.dump] writes it, the history with the rows appended (after a
    header if it is new), and the per-cycle file with a header and the rows
    of this cycle only. *)
Theorem successful_cycle {U : UnicodeData} {ser : Serializer} (env : cycle_env) (data : pyval)
    (entries : list pyval) (r : station_record) (rows : list station_record) (w : world) :
  http env = HttpJson data ->
  py_subscript data (lit "data") = Ok (PList entries) ->
  Forall2 (fun s x => station_row (extract_stamp env) s = Ok x) entries (r :: rows) ->
  snapshot_io env = None -> history_io env = None -> daily_io env = None ->
  let w' := snd (collect_data env w) in
  stats w' = incr_collections_made (incr_total_files (stats w))
  /\ files w' =
     <[daily_csv_path env := to_csv true (r :: rows)]>
       (<[main_csv_path := appended (r :: rows) w]>
          (<[snapshot_path env := json_dump data]> (files w)))
  /\ log w' =
     log w ++ [(INFO, StartingCollection); (INFO, JsonSaved (snapshot_path env))]
           ++ coordinate_warnings (r :: rows)
           ++ [(INFO, Processed (length (r :: rows))); (INFO, FirstRow r);
               (INFO, if bool_decide (is_Some (files w !! main_csv_path))
                      then CsvUpdated main_csv_path else CsvCreated main_csv_path);
               (INFO, CollectionSaved (daily_csv_path env));
               (INFO, CollectionSucceeded)].
Proof.
  intros Hh Hdata Hrows Hs Hhist Hd. cbv zeta.
  assert (Ht : truthy data = true).
  { destruct data as [| | | | | |d]; try discriminate. cbn [py_subscript] in Hdata.
    destruct (dict_mem (lit "data") d) eqn:Hm; [|discriminate].
    eapply dict_mem_nonempty; eassumption. }
  rewrite (collect_data_steps env data w Hh Ht).
  rewrite (save_json_data_run env data _ Ht), Hs.
  rewrite (process_stations_data_run env data entries r rows _ Hdata Hrows).
  rewrite update_csv_run, Hhist, Hd. cbv zeta.
  cbn [snd stats files log add_log bump].
  assert (Hlook : <[snapshot_path env := json_dump data]> (files w) !! main_csv_path
                  = files w !! main_csv_path).
  { apply lookup_insert_ne, snapshot_path_ne. }
  unfold appended, add_log. cbn [snd stats files log]. rewrite Hlook.
  split; [reflexivity|]. split; [reflexivity|].
  rewrite <- !app_assoc. reflexivity.
Qed.

Lemma successful_cycle_witness :
  let w' := snd (@collect_data latin_tables plain_serializer
                   (morning (HttpJson (payload_of [sample_station 1; light_station])))
                   seasoned_world) in
  stats w' = {| collections_made := 4; total_files := 4; errors := 1 |}
  /\ exists r rows,
       Forall2 (fun s x => @station_row latin_tables (lit "2025-04-10 09:00:00") s = Ok x)
               [sample_station 1; light_station] (r :: rows)
       /\ files w' !! main_csv_path =
          Some (@to_csv plain_serializer true [earlier_row]
                +:+ @csv_body plain_serializer (r :: rows))%string.
Proof.
  eassert (Hrows : Forall2 (fun s x => @station_row latin_tables (lit "2025-04-10 09:00:00") s
                                       = Ok x)
                           [sample_station 1; light_station] (_ :: _)).
  { constructor; [vm_compute; reflexivity|].
    constructor; [vm_compute; reflexivity|constructor]. }
  pose proof (@successful_cycle latin_tables plain_serializer
                (morning (HttpJson (payload_of [sample_station 1; light_station])))
                (payload_of [sample_station 1; light_station])
                [sample_station 1; light_station] _ _ seasoned_world
                eq_refl eq_refl Hrows eq_refl eq_refl eq_refl) as (Hst & Hf & _).
  cbv zeta. split; [exact Hst|].
  eexists _, _. split; [exact Hrows|].
  rewrite Hf. rewrite lookup_insert_ne by (intros H; apply (f_equal length) in H; discriminate).
  rewrite lookup_insert_eq. reflexivity.
Defined.



(** X19. A cycle whose per-cycle file cannot be written is counted as an
    error and not as a collection, although its rows have been appended to
    the history: the counters then say less than the history holds. *)
Theorem daily_failure_after_append {U : UnicodeData} {ser : Serializer} (env : cycle_env)
    (data : pyval) (entries : list pyval) (r : station_record) (rows : list station_record)
    (e : exn) (w : world) :
  http env = HttpJson data ->
  py_subscript data (lit "data") = Ok (PList entries) ->
  Forall2 (fun s x => station_row (extract_stamp env) s = Ok x) entries (r :: rows) ->
  snapshot_io env = None -> history_io env = None -> daily_io env = Some e ->
  let w' := snd (collect_data env w) in
  stats w' = incr_errors (incr_total_files (stats w))
  /\ files w' =
     <[main_csv_path := appended (r :: rows) w]>
       (<[snapshot_path env := json_dump data]> (files w)).
Proof.
  intros Hh Hdata Hrows Hs Hhist Hd. cbv zeta.
  assert (Ht : truthy data = true).
  { destruct data as [| | | | | |d]; try discriminate. cbn [py_subscript] in Hdata.
    destruct (dict_mem (lit "data") d) eqn:Hm; [|discriminate].
    eapply dict_mem_nonempty; eassumption. }
  rewrite (collect_data_steps env data w Hh Ht).
  rewrite (save_json_data_run env data _ Ht), Hs.
  rewrite (process_stations_data_run env data entries r rows _ Hdata Hrows).
  rewrite update_csv_run, Hhist, Hd. cbv zeta.
  cbn [snd stats files log add_log bump failed].
  assert (Hlook : <[snapshot_path env := json_dump data]> (files w) !! main_csv_path
                  = files w !! main_csv_path).
  { apply lookup_insert_ne, snapshot_path_ne. }
  unfold appended, add_log. cbn [snd stats files log]. rewrite Hlook.
  split; reflexivity.
Qed.

Lemma daily_failure_after_append_witness :
  let w' := snd (@collect_data latin_tables plain_serializer
                   (morning_without_daily (HttpJson (payload_of [sample_station 1])))
                   new_world) in
  stats w' = {| collections_made := 0; total_files := 1; errors := 1 |}
  /\ is_Some (files w' !! main_csv_path).
Proof.
  eassert (Hrows : Forall2 (fun s x => @station_row latin_tables (lit "2025-04-10 09:00:00") s
                                       = Ok x)
                           [sample_station 1] (_ :: _)).
  { constructor; [vm_compute; reflexivity|constructor]. }
  pose proof (@daily_failure_after_append latin_tables plain_serializer
                (morning_without_daily (HttpJson (payload_of [sample_station 1])))
                (payload_of [sample_station 1]) [sample_station 1] _ _ OSError new_world
                eq_refl eq_refl Hrows eq_refl eq_refl eq_refl) as (Hst & Hf).
  cbv zeta. split; [exact Hst|].
  rewrite Hf, lookup_insert_eq. eexists. reflexivity.
Defined.

(** X20. Appends add up: after any number of non-empty record sets
    appended in turn to a history that did not exist, the history file
    holds one header line followed by the lines of every set, in the order
    of the appends. *)
Theorem history_after_appends {ser : Serializer}
    (cycles : list (cycle_env * list station_record)) (w : world) :
  cycles <> [] ->
  Forall (fun c => history_io (fst c) = None /\ daily_io (fst c) = None /\ snd c <> []) cycles ->
  files w !! main_csv_path = None ->
  files (snd (update_csv_all cycles w)) !! main_csv_path =
  Some (csv_header +:+ concat_bodies cycles)%string.
Proof.
  intros Hne Hall Hnew.
  assert (Hgen : forall cs w0 old,
            Forall (fun c => history_io (fst c) = None /\ daily_io (fst c) = None
                             /\ snd c <> []) cs ->
            files w0 !! main_csv_path = Some old ->
            files (snd (update_csv_all cs w0)) !! main_csv_path =
            Some (old +:+ concat_bodies cs)%string).
  { induction cs as [|[env rows] cs IH]; intros w0 old Hcs Hold.
    - cbn. rewrite string_app_empty. exact Hold.
    - inversion Hcs as [|? ? (Hh & Hd & Hr) Hrest]; subst. cbn [fst snd] in *.
      destruct rows as [|r rows]; [congruence|].
      cbn [update_csv_all]. unfold mbind, M_bind.
      rewrite update_csv_run, Hh, Hd. cbv beta iota zeta.
      rewrite (IH _ (old +:+ csv_body (r :: rows))%string Hrest).
      + cbn [concat_bodies fold_right snd]. rewrite string_app_assoc. reflexivity.
      + cbn [files]. rewrite lookup_insert_ne by apply daily_csv_path_ne.
        rewrite lookup_insert_eq. unfold appended. rewrite Hold. reflexivity. }
  destruct cycles as [|[env rows] cs]; [congruence|].
  inversion Hall as [|? ? (Hh & Hd & Hr) Hrest]; subst. cbn [fst snd] in *.
  destruct rows as [|r rows]; [congruence|].
  cbn [update_csv_all]. unfold mbind, M_bind.
  rewrite update_csv_run, Hh, Hd. cbv beta iota zeta.
  rewrite (Hgen _ _ (csv_header +:+ csv_body (r :: rows))%string Hrest).
  - cbn [concat_bodies fold_right snd]. rewrite string_app_assoc. reflexivity.
  - cbn [files]. rewrite lookup_insert_ne by apply daily_csv_path_ne.
    rewrite lookup_insert_eq. unfold appended. rewrite Hnew. reflexivity.
Qed.

Lemma history_after_appends_witness :
  files (snd (@update_csv_all plain_serializer
                [(morning HttpRequestException, [earlier_row]);
                 (morning HttpRequestException, [earlier_row; earlier_row])] new_world))
    !! main_csv_path =
  Some (@csv_header plain_serializer
        +:+ (show_row earlier_row +:+ (show_row earlier_row +:+ show_row earlier_row)))%string.
Proof.
  rewrite (@history_after_appends plain_serializer
             [(morning HttpRequestException, [earlier_row]);
              (morning HttpRequestException, [earlier_row; earlier_row])] new_world).
  - vm_compute. reflexivity.
  - discriminate.
  - repeat constructor; discriminate.
  - reflexivity.
Defined.

(** X21. A fetch that succeeds with an unusable answer is an error of one
    count: a falsy answer ([null], an empty object or list, zero) leaves no
    file, and an object without ['data'] is still saved as a snapshot and
    counted as a file, while the history stays as it was. *)
Theorem unusable_answer {U : UnicodeData} {ser : Serializer} (env : cycle_env) (data : pyval)
    (w : world) :
  http env = HttpJson data ->
  (truthy data = false ->
   collect_data env w =
   (Ok tt,
    {| stats := incr_errors (stats w);
       files := files w;
       log := log w ++ [(INFO, StartingCollection); (ERROR, NoDataObtained)] |})) /\
  (forall d, data = PDict d -> d <> [] -> dict_mem (lit "data") d = false ->
   snapshot_io env = None ->
   collect_data env w =
   (Ok tt,
    {| stats := incr_errors (incr_total_files (stats w));
       files := <[snapshot_path env := json_dump data]> (files w);
       log := log w ++ [(INFO, StartingCollection); (INFO, JsonSaved (snapshot_path env));
                        (ERROR, InvalidFormat); (ERROR, ProcessingFailed)] |})).
Proof.
  intros Hh. split.
  - intros Ht. rewrite (collect_data_falsy env data w Hh Ht). reflexivity.
  - intros d -> Hd Hm Hs.
    assert (Ht : truthy (PDict d) = true) by (destruct d; [congruence|reflexivity]).
    rewrite (collect_data_steps env (PDict d) w Hh Ht).
    rewrite (save_json_data_run env (PDict d) _ Ht), Hs.
    unfold process_stations_data. rewrite Ht. cbn [negb].
    unfold mbind at 1. unfold M_bind at 1. unfold lift at 1. cbn [py_contains].
    rewrite Hm. cbn [negb]. unfold mbind, M_bind. cbn [logging mret M_ret].
    unfold bump, add_log. cbn [stats files log]. rewrite <- !app_assoc. reflexivity.
Qed.

Lemma unusable_answer_witness :
  @collect_data latin_tables plain_serializer (morning (HttpJson (PDict []))) seasoned_world =
  (Ok tt,
   {| stats := {| collections_made := 3; total_files := 3; errors := 2 |};
      files := files seasoned_world;
      log := log seasoned_world ++ [(INFO, StartingCollection); (ERROR, NoDataObtained)] |}).
Proof.
  exact (proj1 (@unusable_answer latin_tables plain_serializer (morning (HttpJson (PDict [])))
                  (PDict []) seasoned_world eq_refl) eq_refl).
Defined.

(** ** Counters of a run *)

Lemma collect_data_returns {U : UnicodeData} {ser : Serializer} (env : cycle_env) (w : world) :
  fst (collect_data env w) = Ok tt.
Proof.
  unfold collect_data, try_except.
  destruct (collect_data_try env w) as [[[]|e] w1]; reflexivity.
Qed.

(** X15. The counters account for every cycle of a collector.  After [n]
    cycles, some number [failed] of them, between 0 and [n], were counted
    as errors and the others as collections: [collections_made] has grown
    by [n - failed], [errors] by [failed] at least and twice [failed] at
    most (a failed fetch counts twice), and [total_files] by no more than
    [n].  For one cycle: it is either a collection or an error, never both
    and never neither. *)
Theorem cycle_counts {U : UnicodeData} {ser : Serializer} (later : list cycle_env) (w : world) :
  let n := Z.of_nat (length later) in
  let before := stats w in
  let after := stats (snd (run_pending later w)) in
  exists failed,
    0 <= failed <= n
    /\ collections_made after = collections_made before + (n - failed)
    /\ errors before + failed <= errors after <= errors before + 2 * failed
    /\ total_files before + (n - failed) <= total_files after <= total_files before + n.
Proof.
  cbv zeta. revert w. induction later as [|env later IH]; intros w.
  - exists 0. cbn. lia.
  - cbn [run_pending]. unfold mbind, M_bind.
    pose proof (collect_data_returns env w) as Hret.
    pose proof (collect_data_counts env w) as Hone. cbv zeta in Hone.
    destruct (collect_data env w) as [[[]|e] w1]; [|discriminate].
    cbn [snd] in Hone. destruct (IH w1) as (failed & Hf & Hm & He & Ht).
    rewrite length_cons, Nat2Z.inj_succ.
    destruct Hone as [(H1 & H2 & H3)|(H1 & H2 & H3)].
    + exists failed. lia.
    + exists (failed + 1). lia.
Qed.

(** ** The schedulers *)


Section SchedulerFacts.
Context {U : UnicodeData} {ser : Serializer}.


End SchedulerFacts.

(** X22. A window that is over when the loop is entered runs no cycle: the
    program ends at once, with counters and files as they were. *)
Theorem closed_window {U : UnicodeData} {ser : Serializer} (fuel : nat) (cfg : config)
    (start_time end_time start_overrun : Z) (turns : nat -> turn) (now : Z) (w : world) :
  end_time < loop_entry start_time start_overrun now ->
  exists st,
    scheduled_main (S fuel) cfg start_time end_time start_overrun turns now w = Stopped st
    /\ started st = []
    /\ stats (sworld st) = stats w
    /\ files (sworld st) = files w.
Proof.
  unfold loop_entry. intros Hlate. unfold scheduled_main. cbn [scheduled_loop].
  replace ((if now <? start_time then start_time + start_overrun else now) <=? end_time)
    with false by (symmetry; apply Z.leb_gt; exact Hlate).
  eexists. split; [reflexivity|]. cbn [finish started sworld].
  split; [reflexivity|]. destruct (now <? start_time); split; reflexivity.
Qed.

Lemma closed_window_witness :
  exists st,
    @scheduled_main latin_tables plain_serializer 1 sample_config
      (nine_o_clock + 24 * 60 * 60 * 1000000) nine_o_clock 0 (steady_turns 0)
      (nine_o_clock + 1) seasoned_world = Stopped st
    /\ started st = []
    /\ stats (sworld st) = stats seasoned_world
    /\ files (sworld st) = files seasoned_world.
Proof.
  apply (@closed_window latin_tables plain_serializer 0 sample_config
           (nine_o_clock + 24 * 60 * 60 * 1000000) nine_o_clock 0 (steady_turns 0)
           (nine_o_clock + 1) seasoned_world).
  vm_compute. reflexivity.
Defined.

(** X23. With a positive interval the windowed program ends, whatever the
    cycles do and however long they and the sleeps last: every pass moves
    the trigger time forward by an interval at least, so that a number of
    passes above the length of the window divided by the interval is
    enough. *)
Theorem windowed_program_ends {U : UnicodeData} {ser : Serializer} (fuel : nat) (cfg : config)
    (start_time end_time start_overrun : Z) (turns : nat -> turn) (now : Z) (w : world) :
  0 < interval_minutes cfg ->
  (forall k, 0 <= cycle_duration (turns k) /\ 0 <= sleep_overrun (turns k)) ->
  end_time - loop_entry start_time start_overrun now
    < Z.of_nat fuel * (interval_minutes cfg * 60 * 1000000) ->
  exists st,
    scheduled_main (S fuel) cfg start_time end_time start_overrun turns now w = Stopped st.
Proof.
  unfold loop_entry. intros Hint Hturns Hfuel. unfold scheduled_main.
  apply scheduled_loop_stops; [lia|exact Hturns|cbn [clock]; lia|exact Hfuel].
Qed.

Lemma windowed_program_ends_witness :
  exists st,
    @scheduled_main latin_tables plain_serializer 3 sample_config
      nine_o_clock (nine_o_clock + two_hours) 0 (offline_turns 2000000)
      (nine_o_clock - 1000000) new_world = Stopped st.
Proof.
  apply (@windowed_program_ends latin_tables plain_serializer 2 sample_config
           nine_o_clock (nine_o_clock + two_hours) 0 (offline_turns 2000000)
           (nine_o_clock - 1000000) new_world).
  - vm_compute. reflexivity.
  - intros k. cbn. lia.
  - vm_compute. reflexivity.
Defined.



(** X25. Without an access token no collector is created.  The interval
    mode logs one critical error and ends without a cycle; in the windowed
    mode every pass of the loop logs the [ValueError] and goes on to the
    next pass, without a fetch.  Counters and files are untouched. *)
Theorem no_token_no_cycle {U : UnicodeData} {ser : Serializer} (cfg : config) :
  access_token cfg = None \/ access_token cfg = Some [] ->
  (forall first later w,
     interval_main cfg first later w =
     (Ok tt, {| stats := stats w; files := files w;
                log := log w ++ [(ERROR, CriticalError ValueError)] |})) /\
  (forall t next_run st,
     sworld (scheduled_cycle cfg t next_run st) =
     {| stats := stats (sworld st); files := files (sworld st);
        log := log (sworld st)
               ++ [(INFO, StartingProcess); (ERROR, ProcessError ValueError)] |}).
Proof.
  intros Htok. split.
  - intros first later w. unfold interval_main, try_except, BiciMADCollector.
    unfold mbind at 1. unfold M_bind at 1.
    destruct Htok as [-> | ->]; reflexivity.
  - intros t next_run st. unfold scheduled_cycle, run, try_except, BiciMADCollector.
    cbn [sworld]. unfold mbind at 1. unfold M_bind at 1. cbn [logging].
    unfold mbind at 1. unfold M_bind at 1.
    destruct Htok as [-> | ->]; cbn; rewrite <- app_assoc; reflexivity.
Qed.

Lemma no_token_no_cycle_witness :
  @interval_main latin_tables plain_serializer tokenless
    (morning (HttpJson (payload_of ten_stations))) [] seasoned_world =
  (Ok tt, {| stats := stats seasoned_world; files := files seasoned_world;
             log := log seasoned_world ++ [(ERROR, CriticalError ValueError)] |}).
Proof.
  apply (proj1 (@no_token_no_cycle latin_tables plain_serializer tokenless (or_introl eq_refl))).
Defined.



(** ** The import script *)

Lemma try_block_closes (e : CreateDb.env) :
  In (CreateDb.Did CreateDb.Close) (CreateDb.try_block e CreateDb.program) <->
  forall s, CreateDb.outcome e s = None.
Proof.
  split.
  - intros H s. unfold CreateDb.program in H. cbn [CreateDb.try_block] in H.
    repeat match type of H with
           | context [CreateDb.outcome e ?x] =>
               let E := fresh "E" in
               destruct (CreateDb.outcome e x) as [[|]|] eqn:E;
               cbn [CreateDb.announced app In] in H
           end;
      try (repeat (destruct H as [H|H]; try discriminate); contradiction H).
    destruct s; assumption.
  - intros H. unfold CreateDb.program. cbn [CreateDb.try_block].
    rewrite !H. cbn. tauto.
Qed.

(** X27. The import script opens the database only if both CSV files
    exist: when one is missing it prints one message and exits, and no
    statement on the database is run, the connection included; when both
    are missing only the stations file is reported. *)
Theorem import_needs_both_files (e : CreateDb.env) :
  CreateDb.stations_csv e = false \/ CreateDb.status_csv e = false ->
  (forall s, ~ In (CreateDb.Did s) (CreateDb.script e)) /\
  last (CreateDb.script e) = Some CreateDb.Exit /\
  (CreateDb.stations_csv e = false ->
   ~ In (CreateDb.Print CreateDb.StatusFileMissing) (CreateDb.script e)).
Proof.
  intros H. unfold CreateDb.script.
  destruct (CreateDb.stations_csv e) eqn:Hs; cbn [negb].
  - destruct H as [H|H]; [discriminate|]. rewrite H. cbn [negb].
    split; [|split; [reflexivity|discriminate]].
    intros s Hin. cbn in Hin. repeat (destruct Hin as [Hin|Hin]; try discriminate).
    contradiction Hin.
  - split; [|split; [reflexivity|]].
    + intros s Hin. cbn in Hin. repeat (destruct Hin as [Hin|Hin]; try discriminate).
      contradiction Hin.
    + intros _ Hin. cbn in Hin. repeat (destruct Hin as [Hin|Hin]; try discriminate).
      contradiction Hin.
Qed.

Lemma import_needs_both_files_witness :
  (forall s, ~ In (CreateDb.Did s) (CreateDb.script CreateDb.no_status_file)) /\
  last (CreateDb.script CreateDb.no_status_file) = Some CreateDb.Exit.
Proof.
  pose proof (import_needs_both_files CreateDb.no_status_file (or_intror eq_refl))
    as (H1 & H2 & _).
  split; assumption.
Defined.

(** X28. When both files exist, the import script closes its connection
    exactly when no statement of its [try] block raises: [conn.close()] is
    the last statement of the block, so any failure, of [connect] or after
    it, leaves the script without closing. *)
Theorem import_closes_on_success_only (e : CreateDb.env) :
  CreateDb.stations_csv e = true -> CreateDb.status_csv e = true ->
  (In (CreateDb.Did CreateDb.Close) (CreateDb.script e) <->
   forall s, CreateDb.outcome e s = None).
Proof.
  intros Hs Ht. unfold CreateDb.script. rewrite Hs, Ht. cbn [negb app].
  rewrite <- try_block_closes. cbn [In].
  split; [intros [H|[H|H]]; [discriminate|discriminate|exact H]|auto].
Qed.

Lemma import_closes_on_success_only_witness :
  ~ In (CreateDb.Did CreateDb.Close) (CreateDb.script CreateDb.duplicate_ids)
  /\ In (CreateDb.Did CreateDb.ReplaceStations) (CreateDb.script CreateDb.duplicate_ids)
  /\ ~ In (CreateDb.Did CreateDb.ReplaceStatus) (CreateDb.script CreateDb.duplicate_ids).
Proof.
  split; [|split].
  - intros H.
    pose proof (proj1 (import_closes_on_success_only CreateDb.duplicate_ids eq_refl eq_refl) H
                  CreateDb.IndexStationsPublicId) as Hnone.
    discriminate Hnone.
  - cbn. tauto.
  - cbn. intros H. repeat (destruct H as [H|H]; try discriminate). contradiction H.
Defined.
